(** * mozdefevents: query construction, index enumeration, paginated fetch,
      event normalisation and rendering

    A shallow embedding of [main.go].  Go values are modelled as follows:
    - [string] is a sequence of bytes ([String.string]);
    - [map[string]string] is a finite map ([gmap string string]); the nil map
      and the empty map are both [∅] except where the difference is visible;
    - [int] and [time.Duration] are 64-bit integers, carried in [Z] with the
      wrap-around (or saturation) written out;
    - [time.Time] is an instant in UTC, counted in nanoseconds since the Unix
      epoch (every [time.Time] of the program is in UTC and carries no
      monotonic reading: [time.Parse] without a zone and [time.Now().UTC()]);
      the instants are not bounded, where those of Go span some 292 billion
      years around the year 1;
    - [error] is [option string], [None] being [nil]. *)

From Stdlib Require Import ZArith Lia Bool List Ascii String.
From Stdlib Require Import DecimalString DecimalN DecimalPos.
From stdpp Require Import base tactics option list gmap strings.

Local Open Scope Z_scope.

(** ** Package [time] (the part the program uses) *)

Module time.

(** Nanoseconds since 1970-01-01T00:00:00Z. *)
Definition Time := Z.

(** [time.Duration] is an [int64] count of nanoseconds. *)
Definition Duration := Z.

Definition minDuration : Duration := - 2 ^ 63.
Definition maxDuration : Duration := 2 ^ 63 - 1.

Definition Second : Duration := 1000000000.
Definition Hour : Duration := 3600 * Second.

(** [t.Sub(u)]: the difference, saturated to the range of [Duration]. *)
Definition Sub (t u : Time) : Duration :=
  let d := t - u in
  if d <? minDuration then minDuration
  else if maxDuration <? d then maxDuration
  else d.

(** [t.Add(d)]. *)
Definition Add (t : Time) (d : Duration) : Time := t + d.

Definition secondsPerDay : Z := 86400.
Definition daysPer400Years : Z := 365 * 400 + 97.
Definition daysPer100Years : Z := 365 * 100 + 24.
Definition daysPer4Years : Z := 365 * 4 + 1.

(** Days from 0001-01-01 to 1970-01-01. *)
Definition unixToInternalDays : Z :=
  1969 * 365 + 1969 / 4 - 1969 / 100 + 1969 / 400.

(** Seconds since the Unix epoch; the nanosecond part lies in [0, 1e9). *)
Definition unixSec (t : Time) : Z := t / Second.

(** Day number of [t], counted from 0001-01-01. *)
Definition days (t : Time) : Z := unixSec t / secondsPerDay + unixToInternalDays.

(** Second within the day of [t]. *)
Definition secOfDay (t : Time) : Z := unixSec t mod secondsPerDay.

Definition isLeap (year : Z) : bool :=
  (Z.rem year 4 =? 0) && (negb (Z.rem year 100 =? 0) || (Z.rem year 400 =? 0)).

(** The year and the day within the year of a day number: [absDate]'s
    cutting of 400-, 100-, 4- and 1-year cycles.  The epoch of the cycles
    is year 1, which differs from Go's absolute epoch by a whole number of
    400-year cycles. *)
Definition yearDay (d : Z) : Z * Z :=
  let n := d / daysPer400Years in
  let y := 400 * n in
  let d := d - daysPer400Years * n in
  let n := d / daysPer100Years in
  let n := n - Z.shiftr n 2 in
  let y := y + 100 * n in
  let d := d - daysPer100Years * n in
  let n := d / daysPer4Years in
  let y := y + 4 * n in
  let d := d - daysPer4Years * n in
  let n := d / 365 in
  let n := n - Z.shiftr n 2 in
  let y := y + n in
  let d := d - 365 * n in
  (y + 1, d).

(** [daysBefore[m]]: days in a non-leap year before month [m+1]. *)
Definition daysBefore (m : Z) : Z :=
  nth (Z.to_nat m)
      [0; 31; 59; 90; 120; 151; 181; 212; 243; 273; 304; 334; 365] 0.

(** Month (January is 1) and day of the month of a day of the year. *)
Definition monthDay (leap : bool) (yday : Z) : Z * Z :=
  if leap && (yday =? 31 + 29 - 1) then (2, 29)
  else
    let day := if leap && (31 + 29 - 1 <? yday) then yday - 1 else yday in
    let month := day / 31 in
    let end_ := daysBefore (month + 1) in
    if end_ <=? day
    then (month + 2, day - end_ + 1)
    else (month + 1, day - daysBefore month + 1).

(** [absDate]: year, month and day of a day number. *)
Definition absDate (d : Z) : Z * Z * Z :=
  let '(year, yday) := yearDay d in
  let '(month, day) := monthDay (isLeap year) yday in
  (year, month, day).

(** [t.Date()]: year, month, day. *)
Definition Date (t : Time) : Z * Z * Z := absDate (days t).

(** [t.Clock()]: hour, minute, second. *)
Definition Clock (t : Time) : Z * Z * Z :=
  let s := secOfDay t in
  (s / 3600, (s mod 3600) / 60, s mod 60).

Fixpoint zeros (n : nat) : string :=
  match n with
  | O => ""
  | S n => String "0" (zeros n)
  end.

(** Decimal digits of a natural number, ["0"] for zero. *)
Definition digits (u : N) : string := NilZero.string_of_uint (N.to_uint u).

(** [appendInt(b, x, width)] on an empty [b]: the decimal form of [x],
    padded with zeros to at least [width] digits, after the sign. *)
Definition appendInt (x : Z) (width : nat) : string :=
  let u := digits (Z.to_N (Z.abs x)) in
  (if x <? 0 then "-" else "") +:+ zeros (width - String.length u) +:+ u.

(** The layout [20060102] of a date. *)
Definition format20060102 (date : Z * Z * Z) : string :=
  let '(year, month, day) := date in
  appendInt year 4 +:+ appendInt month 2 +:+ appendInt day 2.

(** [t.Format("20060102")]. *)
Definition Format20060102 (t : Time) : string := format20060102 (Date t).

(** [t.Format(time.RFC3339)] for a time in UTC, whose zone prints as [Z]. *)
Definition FormatRFC3339 (t : Time) : string :=
  let '(year, month, day) := Date t in
  let '(hour, min, sec) := Clock t in
  appendInt year 4 +:+ "-" +:+ appendInt month 2 +:+ "-" +:+ appendInt day 2
    +:+ "T" +:+ appendInt hour 2 +:+ ":" +:+ appendInt min 2 +:+ ":"
    +:+ appendInt sec 2 +:+ "Z".

End time.

(** ** The program's data *)

Definition docsPerSearch : Z := 100.

(** Go's [int]: 64 bits, two's complement. *)
Definition int (z : Z) : Z := (z + 2 ^ 63) mod 2 ^ 64 - 2 ^ 63.

(** Go's [error]; [None] is [nil]. *)
Definition error := option string.

Definition nl : string := String "010"%char "".

Module Details.
Record t := mk {
  Hostname : string;
  Command : string;
  DHost : string;
  DProc : string;
  DUser : string;
  SUser : string;
  Fname : string;
  Name : string;
  ProcessName : string;
  OriginalUser : string;
  User : string;
  Path : string
}.

Definition zero : t := mk "" "" "" "" "" "" "" "" "" "" "" "".

Definition setProcessName (v : string) (d : t) : t :=
  mk (Hostname d) (Command d) (DHost d) (DProc d) (DUser d) (SUser d)
     (Fname d) (Name d) v (OriginalUser d) (User d) (Path d).
Definition setOriginalUser (v : string) (d : t) : t :=
  mk (Hostname d) (Command d) (DHost d) (DProc d) (DUser d) (SUser d)
     (Fname d) (Name d) (ProcessName d) v (User d) (Path d).
Definition setUser (v : string) (d : t) : t :=
  mk (Hostname d) (Command d) (DHost d) (DProc d) (DUser d) (SUser d)
     (Fname d) (Name d) (ProcessName d) (OriginalUser d) v (Path d).
Definition setPath (v : string) (d : t) : t :=
  mk (Hostname d) (Command d) (DHost d) (DProc d) (DUser d) (SUser d)
     (Fname d) (Name d) (ProcessName d) (OriginalUser d) (User d) v.
End Details.

Record event := mkEvent {
  Category : string;
  Hostname : string;
  Timestamp : time.Time;
  UTCTimestamp : time.Time;
  Summary : string;
  Details : Details.t
}.

(** The zero [time.Time] is 0001-01-01T00:00:00Z. *)
Definition zeroTime : time.Time :=
  - time.unixToInternalDays * time.secondsPerDay * time.Second.

(** [var nev event]. *)
Definition zeroEvent : event := mkEvent "" "" zeroTime zeroTime "" Details.zero.

Definition setCategory (v : string) (e : event) : event :=
  mkEvent v (Hostname e) (Timestamp e) (UTCTimestamp e) (Summary e) (Details e).
Definition setHostname (v : string) (e : event) : event :=
  mkEvent (Category e) v (Timestamp e) (UTCTimestamp e) (Summary e) (Details e).
Definition setSummary (v : string) (e : event) : event :=
  mkEvent (Category e) (Hostname e) (Timestamp e) (UTCTimestamp e) v (Details e).
Definition setDetails (f : Details.t -> Details.t) (e : event) : event :=
  mkEvent (Category e) (Hostname e) (Timestamp e) (UTCTimestamp e) (Summary e)
          (f (Details e)).

Record config := mkConfig {
  eshost : string;
  startDate : time.Time;
  endDate : time.Time;
  hostmatch : string;
  results : list event
}.

(** [var cfg config]. *)
Definition zeroConfig : config := mkConfig "" zeroTime zeroTime "" [].

Definition setEshost (v : string) (c : config) : config :=
  mkConfig v (startDate c) (endDate c) (hostmatch c) (results c).
Definition setStartDate (v : time.Time) (c : config) : config :=
  mkConfig (eshost c) v (endDate c) (hostmatch c) (results c).
Definition setEndDate (v : time.Time) (c : config) : config :=
  mkConfig (eshost c) (startDate c) v (hostmatch c) (results c).
Definition setHostmatch (v : string) (c : config) : config :=
  mkConfig (eshost c) (startDate c) (endDate c) v (results c).
Definition setResults (v : list event) (c : config) : config :=
  mkConfig (eshost c) (startDate c) (endDate c) (hostmatch c) v.

Record queryCriteria := mkCriteria {
  QueryString : gmap string string;
  Term : gmap string string;
  Match : gmap string string;
  Range : gmap string (gmap string string)
}.

(** [queryCriteria{}]: every map is nil. *)
Definition zeroCriteria : queryCriteria := mkCriteria ∅ ∅ ∅ ∅.

(** The anonymous struct [Query.Bool]. *)
Record queryBool := mkBool {
  Must : list queryCriteria;
  Should : list queryCriteria;
  MinShouldMatch : Z
}.

(** [Sort] is [None] while the map is nil; [Query] stands for [Query.Bool],
    the only field of the anonymous struct [Query]. *)
Record queryContainer := mkQuery {
  From : Z;
  Size : Z;
  Sort : option (gmap string string);
  Query : queryBool
}.

(** [var ret queryContainer]. *)
Definition zeroQuery : queryContainer := mkQuery 0 0 None (mkBool [] [] 0).

Definition setFrom (v : Z) (q : queryContainer) : queryContainer :=
  mkQuery v (Size q) (Sort q) (Query q).
Definition setSize (v : Z) (q : queryContainer) : queryContainer :=
  mkQuery (From q) v (Sort q) (Query q).
Definition setSort (v : option (gmap string string)) (q : queryContainer) :
  queryContainer :=
  mkQuery (From q) (Size q) v (Query q).
Definition setMinShouldMatch (v : Z) (q : queryContainer) : queryContainer :=
  mkQuery (From q) (Size q) (Sort q)
          (mkBool (Must (Query q)) (Should (Query q)) v).
Definition appendMust (qc : queryCriteria) (q : queryContainer) : queryContainer :=
  mkQuery (From q) (Size q) (Sort q)
          (mkBool (Must (Query q) ++ [qc]) (Should (Query q))
                  (MinShouldMatch (Query q))).
Definition appendShould (qc : queryCriteria) (q : queryContainer) : queryContainer :=
  mkQuery (From q) (Size q) (Sort q)
          (mkBool (Must (Query q)) (Should (Query q) ++ [qc])
                  (MinShouldMatch (Query q))).

(** ** Query construction *)

(** A criteria holding only [QueryString["query"] = v]. *)
Definition queryStringCriteria (v : string) : queryCriteria :=
  mkCriteria (<["query" := v]> ∅) ∅ ∅ ∅.

(** A criteria holding only [Match[key] = val]. *)
Definition matchCriteria (key val : string) : queryCriteria :=
  mkCriteria ∅ ∅ (<[key := val]> ∅) ∅.

(** The criteria built at the head of [defaultSettings]. *)
Definition rangeCriteria (cfg : config) : queryCriteria :=
  mkCriteria ∅ ∅ ∅
    (<["utctimestamp" :=
         <["lte" := time.FormatRFC3339 (endDate cfg)]>
           (<["gte" := time.FormatRFC3339 (startDate cfg)]> ∅)]> ∅).

Definition defaultSettings (cfg : config) (q : queryContainer) :
  queryContainer * error :=
  let q := setFrom 0 q in
  let q := setSize docsPerSearch q in
  let q := setSort (Some (<["utctimestamp" := "asc"]> ∅)) q in
  let q := setMinShouldMatch 1 q in
  let q := appendMust (rangeCriteria cfg) q in
  let q :=
    if negb (String.eqb (hostmatch cfg) "") then
      let q := appendShould
                 (queryStringCriteria ("hostname: /" +:+ hostmatch cfg +:+ "/")) q in
      let q := appendShould
                 (queryStringCriteria ("details.dhost: /" +:+ hostmatch cfg +:+ "/")) q in
      appendShould
        (queryStringCriteria ("details.hostname: /" +:+ hostmatch cfg +:+ "/")) q
    else q in
  (q, None).

Definition addMatch (key val : string) (q : queryContainer) : queryContainer :=
  appendMust (matchCriteria key val) q.

Definition buildAuditSearch (cfg : config) : queryContainer * error :=
  let ret := zeroQuery in
  let '(ret, err) := defaultSettings cfg ret in
  match err with
  | Some _ => (ret, err)
  | None =>
      let ret := addMatch "_type" "auditd" ret in
      (ret, None)
  end.

Definition buildSyslogSearch (cfg : config) : queryContainer * error :=
  let ret := zeroQuery in
  let '(ret, err) := defaultSettings cfg ret in
  match err with
  | Some _ => (ret, err)
  | None =>
      let ret := addMatch "_type" "event" ret in
      let ret := addMatch "category" "syslog" ret in
      (ret, None)
  end.

(** ** [encoding/json]: the document a [queryContainer] marshals to *)

#[local] Set Warnings "-register-all".

Inductive json :=
| JNull
| JNumber (n : Z)
| JString (s : string)
| JArray (l : list json)
| JObject (fields : list (string * json)).

(** Map keys are written in sorted order. *)
Fixpoint insertKey (kv : string * json) (l : list (string * json)) :
  list (string * json) :=
  match l with
  | [] => [kv]
  | kv' :: l' =>
      if String.leb (fst kv) (fst kv') then kv :: l else kv' :: insertKey kv l'
  end.

Definition sortKeys (l : list (string * json)) : list (string * json) :=
  foldr insertKey [] l.

Definition marshalMap {A} (f : A -> json) (m : gmap string A) : json :=
  JObject (sortKeys (map_to_list (f <$> m))).

(** A field tagged [omitempty] of map type is left out when the map has no
    entry. *)
Definition omitemptyMap {A} (name : string) (f : A -> json) (m : gmap string A) :
  list (string * json) :=
  if decide (size m = 0%nat) then [] else [(name, marshalMap f m)].

(** A field tagged [omitempty] of slice type is left out when the slice has
    no element. *)
Definition omitemptySlice {A} (name : string) (f : A -> json) (l : list A) :
  list (string * json) :=
  match l with
  | [] => []
  | _ => [(name, JArray (map f l))]
  end.

Definition marshalCriteria (qc : queryCriteria) : json :=
  JObject (omitemptyMap "query_string" JString (QueryString qc)
           ++ omitemptyMap "term" JString (Term qc)
           ++ omitemptyMap "match" JString (Match qc)
           ++ omitemptyMap "range" (marshalMap JString) (Range qc)).

Definition marshalBool (b : queryBool) : json :=
  JObject (omitemptySlice "must" marshalCriteria (Must b)
           ++ omitemptySlice "should" marshalCriteria (Should b)
           ++ [("minimum_should_match", JNumber (MinShouldMatch b))]).

Definition marshalQuery (q : queryContainer) : json :=
  JObject [("from", JNumber (From q));
           ("size", JNumber (Size q));
           ("sort", match Sort q with
                    | None => JNull
                    | Some m => marshalMap JString m
                    end);
           ("query", JObject [("bool", marshalBool (Query q))])].

(** The member of an object under a key, [None] when the key is absent or
    the value is no object. *)
Definition member (key : string) (j : json) : option json :=
  match j with
  | JObject fields => snd <$> find (fun kv => String.eqb (fst kv) key) fields
  | _ => None
  end.

(** The value reached from a document through a path of keys. *)
Definition members (path : list string) (j : json) : option json :=
  foldl (fun o key => o ≫= member key) (Some j) path.

(** ** Normalisation *)

Definition inCutset (cutset : string) (c : ascii) : bool :=
  existsb (Ascii.eqb c) (list_ascii_of_string cutset).

Fixpoint TrimLeft (s cutset : string) : string :=
  match s with
  | String c s' => if inCutset cutset c then TrimLeft s' cutset else s
  | EmptyString => EmptyString
  end.

Fixpoint TrimRight (s cutset : string) : string :=
  match s with
  | String c s' =>
      match TrimRight s' cutset with
      | EmptyString => if inCutset cutset c then EmptyString else String c EmptyString
      | r => String c r
      end
  | EmptyString => EmptyString
  end.

(** [strings.Trim] for a cutset of ASCII characters. *)
Definition Trim (s cutset : string) : string :=
  TrimLeft (TrimRight s cutset) cutset.

Definition normalize (e : event) : event * error :=
  let e :=
    if String.eqb (Hostname e) "" && negb (String.eqb (Details.DHost (Details e)) "")
    then setHostname (Details.DHost (Details e)) e else e in
  let e :=
    if String.eqb (Details.User (Details e)) ""
       && negb (String.eqb (Details.DUser (Details e)) "")
    then setDetails (Details.setUser (Details.DUser (Details e))) e else e in
  let e :=
    if String.eqb (Details.Path (Details e)) ""
       && negb (String.eqb (Details.Fname (Details e)) "")
    then setDetails (Details.setPath (Details.Fname (Details e))) e else e in
  let e :=
    if String.eqb (Details.OriginalUser (Details e)) ""
       && negb (String.eqb (Details.SUser (Details e)) "")
    then setDetails (Details.setOriginalUser (Details.SUser (Details e))) e else e in
  let e :=
    if String.eqb (Details.ProcessName (Details e)) ""
       && negb (String.eqb (Details.DProc (Details e)) "")
    then setDetails (Details.setProcessName (Details.DProc (Details e))) e else e in
  let e :=
    if String.eqb (Details.Name (Details e)) "Unix Exec"
    then setCategory "execve" e else e in
  let e := setSummary (Trim (Summary e) (" " +:+ nl)) e in
  (e, None).

(** ** Rendering *)

Section Render.

(** [strconv.Quote], behind the verb [%q]. *)
Variable Quote : string -> string.

(** [Time.String], behind the verb [%v] for a [time.Time]. *)
Variable TimeString : time.Time -> string.

(** The value of [evstr] at the end of one turn of [auditResults]'s loop. *)
Definition auditEvstr (x : event) : string :=
  let evstr := "unknown audit event" in
  if String.eqb (Category x) "execve" then
    let evstr := "[execve]" in
    let origuser := "none" in
    let origuser :=
      if negb (String.eqb (Details.OriginalUser (Details x)) "")
      then Details.OriginalUser (Details x) else origuser in
    let evstr := evstr +:+ " (" +:+ origuser +:+ "/" +:+ Details.User (Details x) +:+ ")" in
    let evstr :=
      if negb (String.eqb (Details.Command (Details x)) "")
      then evstr +:+ " command:" +:+ Quote (Details.Command (Details x))
      else evstr in
    let evstr :=
      if negb (String.eqb (Details.DProc (Details x)) "")
      then evstr +:+ " proc:" +:+ Quote (Details.ProcessName (Details x))
      else evstr in
    let evstr :=
      if negb (String.eqb (Details.Path (Details x)) "")
      then evstr +:+ " path:" +:+ Quote (Details.Path (Details x))
      else evstr in
    evstr
  else evstr.

(** The line one turn of [auditResults]'s loop writes. *)
Definition auditLine (x : event) : string :=
  TimeString (Timestamp x) +:+ " " +:+ Hostname x +:+ " " +:+ auditEvstr x +:+ nl.

(** What [auditResults] writes to the standard output, line by line. *)
Definition auditResults (cfg : config) : list string :=
  map auditLine (results cfg).

Definition syslogEvstr (x : event) : string :=
  let evstr := "[syslog] unknown syslog event" in
  if negb (String.eqb (Summary x) "") then "[syslog] " +:+ Summary x else evstr.

Definition syslogLine (x : event) : string :=
  TimeString (Timestamp x) +:+ " " +:+ Details.Hostname (Details x) +:+ " "
    +:+ syslogEvstr x +:+ nl.

Definition syslogResults (cfg : config) : list string :=
  map syslogLine (results cfg).

End Render.

(** [strconv.Quote] on a string of ASCII characters, byte by byte: the
    double quote and the backslash are escaped, control characters are
    written as their escapes. *)
Definition dquote : ascii := "034"%char.

Definition hexDigit (n : N) : ascii :=
  nth (N.to_nat n) (list_ascii_of_string "0123456789abcdef") "0"%char.

Definition quoteByte (c : ascii) : string :=
  let n := N_of_ascii c in
  if Ascii.eqb c dquote then String "\"%char (String dquote "")
  else if Ascii.eqb c "\"%char then "\\"
  else if (n =? 7)%N then "\a"
  else if (n =? 8)%N then "\b"
  else if (n =? 12)%N then "\f"
  else if (n =? 10)%N then "\n"
  else if (n =? 13)%N then "\r"
  else if (n =? 9)%N then "\t"
  else if (n =? 11)%N then "\v"
  else if (n <? 32)%N || (126 <? n)%N
       then String "\"%char (String "x"%char
              (String (hexDigit (n / 16)) (String (hexDigit (n mod 16)) "")))
  else String c "".

Definition quoteASCII (s : string) : string :=
  String dquote
    (foldr (fun c r => quoteByte c +:+ r) (String dquote "") (list_ascii_of_string s)).

(** ** The index enumeration and the paginated fetch *)

(** The name of the index of the day of [t]. *)
Definition indexName (t : time.Time) : string :=
  "events-" +:+ time.Format20060102 t.

(** The first loop of [runQuery]; [None] when [fuel] turns do not reach the
    [break]. *)
Fixpoint runQuery_indices (fuel : nat) (cfg : config) (dp : time.Time)
  (indices : list string) : option (list string) :=
  match fuel with
  | O => None
  | S fuel =>
      let idx := indexName dp in
      let indices := indices ++ [idx] in
      if time.Sub (endDate cfg) dp <? time.Hour * 24 then
        let idx := indexName (endDate cfg) in
        let found := existsb (String.eqb idx) indices in
        let indices := if negb found then indices ++ [idx] else indices in
        Some indices
      else
        let dp := time.Add dp (time.Hour * 24) in
        runQuery_indices fuel cfg dp indices
  end.

(** One call of [conn.Search]: the domain, the index, the document type and
    the query sent. *)
Record request := mkRequest {
  reqDomain : string;
  reqIndex : string;
  reqDoctype : string;
  reqQuery : queryContainer
}.

Section Fetch.

(** The state of the search backend, and a document as it returns it
    (the [Source] of a hit). *)
Context {Backend Source : Type}.

(** [conn.Search(index, doctype, nil, qry)] on a connection to a domain:
    the hits ([res.Hits.Hits]) and the error. *)
Variable Search :
  Backend -> request -> Backend * (list Source * error).

(** [json.Unmarshal] of a hit's source into [nev]. *)
Variable Unmarshal : Source -> event -> event * error.

(** What a run reads and writes: the backend, the global [cfg], and the
    calls of [conn.Search] made so far, oldest first. *)
Record world := mkWorld {
  backend : Backend;
  cfg : config;
  sent : list request
}.

(** The loop over [res.Hits.Hits]. *)
Fixpoint runQueryIndex_hits (hits : list Source) (c : config) : config * error :=
  match hits with
  | [] => (c, None)
  | x :: hits =>
      let nev := zeroEvent in
      let '(nev, err) := Unmarshal x nev in
      match err with
      | Some _ => (c, err)
      | None =>
          let '(nev, err) := normalize nev in
          match err with
          | Some _ => (c, err)
          | None => runQueryIndex_hits hits (setResults (results c ++ [nev]) c)
          end
      end
  end.

(** The loop of [runQueryIndex] ([i], which nothing reads, is left out);
    [None] when [fuel] turns do not reach a [return] or the [break]. *)
Fixpoint runQueryIndex_loop (fuel : nat) (w : world) (qry : queryContainer)
  (index doctype : string) : option (world * error) :=
  match fuel with
  | O => None
  | S fuel =>
      let rq := mkRequest (eshost (cfg w)) index doctype qry in
      let '(b, (hits, err)) := Search (backend w) rq in
      let w := mkWorld b (cfg w) (sent w ++ [rq]) in
      match err with
      | Some _ => Some (w, err)
      | None =>
          if Z.of_nat (length hits) =? 0 then Some (w, None)
          else
            let '(c, err) := runQueryIndex_hits hits (cfg w) in
            let w := mkWorld (backend w) c (sent w) in
            match err with
            | Some _ => Some (w, err)
            | None =>
                let qry := setFrom (int (From qry + docsPerSearch)) qry in
                runQueryIndex_loop fuel w qry index doctype
            end
      end
  end.

Definition runQueryIndex (fuel : nat) (w : world) (qry : queryContainer)
  (index doctype : string) : option (world * error) :=
  let qry := setFrom 0 qry in
  runQueryIndex_loop fuel w qry index doctype.

(** The second loop of [runQuery]. *)
Fixpoint runQuery_range (fuel : nat) (w : world) (qry : queryContainer)
  (doctype : string) (indices : list string) : option (world * error) :=
  match indices with
  | [] => Some (w, None)
  | x :: indices =>
      match runQueryIndex fuel w qry x doctype with
      | None => None
      | Some (w, Some err) => Some (w, Some err)
      | Some (w, None) => runQuery_range fuel w qry doctype indices
      end
  end.

Definition runQuery (fuel : nat) (w : world) (qry : queryContainer)
  (doctype : string) : option (world * error) :=
  match runQuery_indices fuel (cfg w) (startDate (cfg w)) [] with
  | None => None
  | Some indices => runQuery_range fuel w qry doctype indices
  end.

(** ** [main] *)

(** [time.Parse(layout, value)]. *)
Variable Parse : string -> string -> time.Time * error.

(** [time.Now().UTC()]. *)
Variable Now : time.Time.

Variable Quote : string -> string.
Variable TimeString : time.Time -> string.

Definition getESHost (env : string) (c : config) : config * error :=
  let c := setEshost env c in
  if String.eqb (eshost c) ""
  then (c, Some "MOZDEFESHOST environment variable not set")
  else (c, None).

Definition parseDates (begin_ end_ : string) (c : config) : config * error :=
  let '(t, err) := Parse "2006-01-02 15:04:05" begin_ in
  let c := setStartDate t c in
  match err with
  | Some _ => (c, err)
  | None =>
      if String.eqb end_ "" then (setEndDate Now c, None)
      else
        let '(t, err) := Parse "2006-01-02 15:04:05" end_ in
        let c := setEndDate t c in
        match err with
        | Some _ => (c, err)
        | None => (c, None)
        end
  end.

(** The branch of [main] that ran last. *)
Inductive mode := Audit | Syslog.

(** How a run of [main] ends, and what it has written. *)
Inductive outcome :=
| NoHost (stderr : string)              (* [getESHost] failed; exit 1 *)
| NoMode (stderr : string)              (* neither [-a] nor [-s]; exit 1 *)
| BadDates (stderr : string)            (* [parseDates] failed; exit 1 *)
| BuildFailed (m : mode) (stderr : string)  (* the query was not built; exit 1 *)
| DryRun (m : mode) (doc : json)        (* [-n]: the query printed; exit 0 *)
| QueryFailed (m : mode) (w : world) (stderr : string) (* [runQuery] failed; exit 1 *)
| Printed (m : mode) (w : world) (stdout : list string) (* results printed *)
| Diverged                              (* out of fuel *)
| Returned.                             (* [main] returns with nothing done *)

(** [fmt.Fprintf(os.Stderr, "error: %v\n", err)]. *)
Definition errorLine (err : string) : string := "error: " +:+ err +:+ nl.

Definition main (fuel : nat) (b : Backend) (env : string)
  (auditmode syslogmode : bool) (begindate enddate : string) (noop : bool)
  (hostmatch_ : string) : outcome :=
  let c := zeroConfig in
  let '(c, err) := getESHost env c in
  match err with
  | Some err => NoHost (errorLine err)
  | None =>
  if negb auditmode && negb syslogmode
  then NoMode ("error: must specify -a or -s" +:+ nl)
  else
  let '(c, err) := parseDates begindate enddate c in
  match err with
  | Some err => BadDates (errorLine err)
  | None =>
  let c := setHostmatch hostmatch_ c in
  let w := mkWorld b c [] in
  if auditmode then
    let '(qry, err) := buildAuditSearch c in
    match err with
    | Some err => BuildFailed Audit (errorLine err)
    | None =>
    if noop then DryRun Audit (marshalQuery qry)
    else
      match runQuery fuel w qry "auditd" with
      | None => Diverged
      | Some (w, Some err) => QueryFailed Audit w (errorLine err)
      | Some (w, None) => Printed Audit w (auditResults Quote TimeString (cfg w))
      end
    end
  else if syslogmode then
    let '(qry, err) := buildSyslogSearch c in
    match err with
    | Some err => BuildFailed Syslog (errorLine err)
    | None =>
    if noop then DryRun Syslog (marshalQuery qry)
    else
      match runQuery fuel w qry "event" with
      | None => Diverged
      | Some (w, Some err) => QueryFailed Syslog w (errorLine err)
      | Some (w, None) => Printed Syslog w (syslogResults TimeString (cfg w))
      end
    end
  else Returned
  end
  end.

End Fetch.

Arguments world : clear implicits.
Arguments outcome : clear implicits.

(** ** Definitions the statements use *)

(** One fallback of [normalize]: the source replaces an empty canonical
    field when it is not empty itself. *)
Definition fallback (canonical source : string) : string :=
  if String.eqb canonical "" && negb (String.eqb source "") then source
  else canonical.

(** The mode of the branch of [main] an outcome comes from. *)
Definition outcomeMode {Backend : Type} (o : outcome Backend) : option mode :=
  match o with
  | BuildFailed m _ | DryRun m _ | QueryFailed m _ _ | Printed m _ _ => Some m
  | _ => None
  end.

(** The outcome is the error of the missing mode. *)
Definition missingMode {Backend : Type} (o : outcome Backend) : Prop :=
  o = NoMode ("error: must specify -a or -s" +:+ nl).

(** The requests of a block all go to one index. *)
Definition onIndex (index : string) (block : list request) : Prop :=
  Forall (fun rq => reqIndex rq = index) block.

(** [n] requests for successive pages: the query with the offsets [off],
    [off + 100], [off + 200], ... *)
Definition pageRequests (domain index doctype : string) (qry : queryContainer)
  (off : Z) (n : nat) : list request :=
  map (fun k => mkRequest domain index doctype
                  (setFrom (off + docsPerSearch * Z.of_nat k) qry))
      (seq 0 n).

Section Serving.

Context {Backend Source : Type}.
Variable Search : Backend → request → Backend * (list Source * error).
Variable Unmarshal : Source → event → event * error.

(** From the state [b], the backend answers the requests for the offsets
    [off], [off + 100], ... with the pages [pages], none of them empty, then
    with an empty page, and is left in the state [b']. *)
Fixpoint serves (b : Backend) (domain index doctype : string)
  (qry : queryContainer) (off : Z) (pages : list (list Source)) (b' : Backend) : Prop :=
  match pages with
  | [] =>
      Search b (mkRequest domain index doctype (setFrom off qry)) = (b', ([], None))
  | p :: pages =>
      p ≠ [] ∧
      ∃ b1, Search b (mkRequest domain index doctype (setFrom off qry)) = (b1, (p, None))
            ∧ serves b1 domain index doctype qry (off + docsPerSearch) pages b'
  end.

(** The document decodes. *)
Definition decodes (src : Source) : Prop := (Unmarshal src zeroEvent).2 = None.

(** The event a document that decodes is stored as. *)
Definition stored (src : Source) : event :=
  (normalize (Unmarshal src zeroEvent).1).1.

End Serving.

(** The days before the first of January of a year, counted from
    0001-01-01. *)
Definition daysBeforeYear (year : Z) : Z :=
  365 * (year - 1) + (year - 1) / 4 - (year - 1) / 100 + (year - 1) / 400.

(** The day of the year of a date. *)
Definition ydayOf (leap : bool) (month day : Z) : Z :=
  time.daysBefore (month - 1) + (if leap && (3 <=? month) then 1 else 0) + day - 1.

(** The day number of a date. *)
Definition daysOfDate (date : Z * Z * Z) : Z :=
  let '(year, month, day) := date in
  daysBeforeYear year + ydayOf (time.isLeap year) month day.

(** Reading a number back from its digits. *)
Definition decodeN (s : string) : option N :=
  N.of_uint <$> NilEmpty.uint_of_string s.

Definition decodeZ (s : string) : option Z :=
  match s with
  | String "-" s' => (fun n => - Z.of_N n) <$> decodeN s'
  | _ => Z.of_N <$> decodeN s
  end.

(** The name of the index of a day number. *)
Definition dayIndex (d : Z) : string :=
  "events-" +:+ time.format20060102 (time.absDate d).

(** A name of the form [events-YYYYMMDD]: the year on four digits at least,
    the month and the day of the month on two digits each. *)
Definition eventsYYYYMMDD (name : string) : Prop :=
  ∃ year month day : Z,
    1 ≤ month ≤ 12 ∧ 1 ≤ day ≤ 31
    ∧ name = "events-" +:+ time.appendInt year 4 +:+ time.appendInt month 2
               +:+ time.appendInt day 2
    ∧ (4 ≤ String.length (time.appendInt year 4))%nat
    ∧ String.length (time.appendInt month 2) = 2%nat
    ∧ String.length (time.appendInt day 2) = 2%nat.

(** The check of [monthDay] on one day of the year. *)
Definition monthDay_ok (leap : bool) (yday : Z) : bool :=
  let '(month, day) := time.monthDay leap yday in
  (1 <=? month) && (month <=? 12) && (1 <=? day) && (day <=? 31)
  && (yday =? ydayOf leap month day).

(** The cutset of [normalize]: the space and the newline. *)
Definition summaryCutset : string := " " +:+ nl.

(** Every character of a string is in a cutset. *)
Definition allIn (cutset s : string) : Prop :=
  forallb (inCutset cutset) (list_ascii_of_string s) = true.

(** The offset of the request for page [k] of a fetch: 100 added [k] times
    to 0, in 64 bits. *)
Definition offsetAt (k : nat) : Z :=
  Nat.iter k (fun off => int (off + docsPerSearch)) 0.

(** Two configurations differ in their results at most. *)
Definition sameSettings (c c' : config) : Prop :=
  eshost c' = eshost c ∧ startDate c' = startDate c
  ∧ endDate c' = endDate c ∧ hostmatch c' = hostmatch c.

Section ServingTo.

Context {Backend Source : Type}.
Variable Search : Backend → request → Backend * (list Source * error).

(** From the state [b], the backend answers the requests for the offsets
    [off], [off + 100], ... with the pages [pages], none of them empty, and
    is then in the state [b']. *)
Fixpoint servesTo (b : Backend) (domain index doctype : string)
  (qry : queryContainer) (off : Z) (pages : list (list Source)) (b' : Backend) : Prop :=
  match pages with
  | [] => b' = b
  | p :: pages =>
      p ≠ [] ∧
      ∃ b1, Search b (mkRequest domain index doctype (setFrom off qry)) = (b1, (p, None))
            ∧ servesTo b1 domain index doctype qry (off + docsPerSearch) pages b'
  end.

End ServingTo.

(** The requests of one fetch of an index: one at least, for the pages 0,
    1, ... of the query. *)
Definition fetchBlock (domain doctype : string) (qry : queryContainer)
  (index : string) (block : list request) : Prop :=
  ∃ n : nat,
    (0 < n)%nat
    ∧ block = map (fun j => mkRequest domain index doctype (setFrom (offsetAt j) qry))
                  (seq 0 n).

(** A request of a run: to the domain, for the document type, with the
    query at some offset. *)
Definition runRequest (domain doctype : string) (qry : queryContainer)
  (rq : request) : Prop :=
  reqDomain rq = domain ∧ reqDoctype rq = doctype
  ∧ setFrom 0 (reqQuery rq) = setFrom 0 qry.

(** The document of a query: the range on [utctimestamp] and the match
    clauses [matches] under [must], the three query-string clauses on the
    hostname pattern under [should] when there is a pattern, and the
    threshold. *)
Definition queryDocument (c : config) (matches : list (string * string)) : json :=
  JObject
    [("from", JNumber 0);
     ("size", JNumber 100);
     ("sort", JObject [("utctimestamp", JString "asc")]);
     ("query",
      JObject
        [("bool",
          JObject
            ([("must",
               JArray
                 (JObject
                    [("range",
                      JObject
                        [("utctimestamp",
                          JObject
                            [("gte", JString (time.FormatRFC3339 (startDate c)));
                             ("lte", JString (time.FormatRFC3339 (endDate c)))])])]
                  :: map (fun kv => JObject [("match", JObject [(kv.1, JString kv.2)])])
                         matches))]
             ++ (if String.eqb (hostmatch c) "" then []
                 else
                   [("should",
                     JArray
                       (map (fun field =>
                               JObject
                                 [("query_string",
                                   JObject
                                     [("query",
                                       JString (field +:+ ": /" +:+ hostmatch c
                                                  +:+ "/"))])])
                            ["hostname"; "details.dhost"; "details.hostname"]))])
             ++ [("minimum_should_match", JNumber 1)]))])].

(** The document type a mode searches. *)
Definition modeDoctype (m : mode) : string :=
  match m with
  | Audit => "auditd"
  | Syslog => "event"
  end.

(** The query a mode builds. *)
Definition modeQuery (m : mode) (c : config) : queryContainer :=
  match m with
  | Audit => (buildAuditSearch c).1
  | Syslog => (buildSyslogSearch c).1
  end.

(** A search whose end is before its start: from 2015-03-02 12:00:00 back to
    2015-03-01 00:00:00. *)
Definition stubConfigBackwards : config :=
  setEndDate 1425168000000000000
    (setStartDate 1425297600000000000 (setEshost "localhost:9200" zeroConfig)).

(** The outcome of a run that has called the backend, or would have. *)
Definition contacted {Backend : Type} (o : outcome Backend) : Prop :=
  match o with
  | QueryFailed _ _ _ | Printed _ _ _ | Diverged => True
  | _ => False
  end.

(** The layout [parseDates] reads the dates in. *)
Definition dateLayout : string := "2006-01-02 15:04:05".

(** ** A scripted backend and sample inputs *)

(** The answers to the calls of [conn.Search], in order; a call past the end
    of the script fails.  The documents are events already decoded. *)
Definition stubSearch (b : list (list event * error)) (rq : request) :
  list (list event * error) * (list event * error) :=
  match b with
  | [] => ([], ([], Some "no answer left"))
  | r :: b => (b, r)
  end.

Definition stubUnmarshal (src : event) (nev : event) : event * error := (src, None).

(** A page of [n] hits. *)
Definition stubPage (n : nat) : list event * error := (repeat zeroEvent n, None).

(** The example of the specification: a backend that answers with pages of
    100, 100, 37 and 0 hits. *)
Definition stubPages : list (list event) :=
  [repeat zeroEvent 100; repeat zeroEvent 100; repeat zeroEvent 37].

(** A search from 2015-03-01 00:00:00 to 2015-03-02 12:00:00. *)
Definition stubConfig : config :=
  setEndDate 1425297600000000000
    (setStartDate 1425168000000000000 (setEshost "localhost:9200" zeroConfig)).

Definition stubWorld (script : list (list event * error)) :
  world (list (list event * error)) :=
  mkWorld script (setEshost "localhost:9200" zeroConfig) [].

(** A backend that serves one hit and an empty page for a first index, fails
    on the first request for a second index, and would serve an empty page
    for a third. *)
Definition stubFailing : list (list event * error) :=
  [stubPage 1; stubPage 0; ([], Some "connection refused"); stubPage 0].

(** [time.Parse] of the two dates the examples use, an error otherwise. *)
Definition stubParse (layout value : string) : time.Time * error :=
  if String.eqb value "2015-03-01 00:00:00" then (1425168000000000000, None)
  else if String.eqb value "2015-03-02 12:00:00" then (1425297600000000000, None)
  else (zeroTime, Some "parsing time: bad value").

(** [Time.String] for an instant in UTC: the layout
    [2006-01-02 15:04:05.999999999 -0700 MST], the fraction of the second
    without its trailing zeros and left out when it is zero. *)
Definition stubTimeString (t : time.Time) : string :=
  let '(year, month, day) := time.Date t in
  let '(hour, min, sec) := time.Clock t in
  let nsec := t mod time.Second in
  time.appendInt year 4 +:+ "-" +:+ time.appendInt month 2 +:+ "-"
    +:+ time.appendInt day 2 +:+ " " +:+ time.appendInt hour 2 +:+ ":"
    +:+ time.appendInt min 2 +:+ ":" +:+ time.appendInt sec 2
    +:+ (if nsec =? 0 then "" else "." +:+ TrimRight (time.appendInt nsec 9) "0")
    +:+ " +0000 UTC".

(** An event whose user is empty, with a source and a destination user. *)
Definition eventWithUsers : event :=
  mkEvent "execve" "web1" zeroTime zeroTime "ran"
    (Details.mk "" "id" "" "" "root" "alice" "" "" "" "" "" "").

(** An event that normalisation leaves as it is: an [execve] of [ls -la] by
    [root], with a process name and no [dproc]. *)
Definition eventLs : event :=
  mkEvent "execve" "web1" zeroTime zeroTime "ran"
    (Details.mk "" "ls -la" "" "" "" "" "" "Unix Exec" "ls" "" "root" "").

(** A document that does not decode, and a decoder that refuses it. *)
Definition eventMalformed : event := setCategory "malformed" zeroEvent.

Definition stubDecode (src : event) (nev : event) : event * error :=
  if String.eqb (Category src) "malformed" then (nev, Some "invalid character")
  else (src, None).

(** A backend whose second answer for an index is an error. *)
Definition stubTimeout : list (list event * error) :=
  [stubPage 2; ([], Some "connection refused")].

(** A backend whose second page has a malformed document in the middle. *)
Definition stubGarbled : list (list event * error) :=
  [stubPage 1; ([zeroEvent; eventMalformed; zeroEvent], None); stubPage 0].

(** A backend with one [execve] event for the first day of a search and
    nothing for the second. *)
Definition stubTwoDays : list (list event * error) :=
  [([eventLs], None); stubPage 0; stubPage 0].

(** ** Proof tools *)

(** Linear arithmetic with divisions and remainders by constants. *)
Ltac dlia := Z.to_euclidean_division_equations; lia.

(** Linear arithmetic on instants and durations. *)
Ltac tlia :=
  unfold time.Add, time.Hour, time.Second in *; lia.

(** * Properties *)

(** ** Query construction *)

(** C5: an empty hostname pattern leaves the should-list empty; a non-empty
    pattern gives exactly the three query-string clauses on [hostname],
    [details.dhost] and [details.hostname], in both modes; the minimum
    number of should-clauses to match is 1. *)
Theorem should_clauses (c : config) :
  let should_ :=
    if String.eqb (hostmatch c) "" then []
    else [ queryStringCriteria ("hostname: /" +:+ hostmatch c +:+ "/");
           queryStringCriteria ("details.dhost: /" +:+ hostmatch c +:+ "/");
           queryStringCriteria ("details.hostname: /" +:+ hostmatch c +:+ "/") ] in
  Should (Query (buildAuditSearch c).1) = should_
  ∧ Should (Query (buildSyslogSearch c).1) = should_
  ∧ MinShouldMatch (Query (buildAuditSearch c).1) = 1
  ∧ MinShouldMatch (Query (buildSyslogSearch c).1) = 1
  ∧ ∀ v, QueryString (queryStringCriteria v) = {[ "query" := v ]}
         ∧ Term (queryStringCriteria v) = ∅
         ∧ Match (queryStringCriteria v) = ∅
         ∧ Range (queryStringCriteria v) = ∅.
Proof.
  unfold buildAuditSearch, buildSyslogSearch, defaultSettings.
  destruct (String.eqb (hostmatch c) ""); cbn; repeat split; reflexivity.
Qed.

(** C6: the must-list starts with the range clause on [utctimestamp], from
    the start to the end of the search both included ([gte], [lte]), written
    in RFC 3339; audit mode adds the one match clause [_type = auditd],
    syslog mode the two match clauses [_type = event] and
    [category = syslog]. *)
Theorem must_clauses (c : config) :
  ∃ rc : queryCriteria,
    Range rc = {[ "utctimestamp" :=
                    {[ "gte" := time.FormatRFC3339 (startDate c);
                       "lte" := time.FormatRFC3339 (endDate c) ]} ]}
    ∧ QueryString rc = ∅ ∧ Term rc = ∅ ∧ Match rc = ∅
    ∧ buildAuditSearch c =
        (mkQuery 0 100 (Some {[ "utctimestamp" := "asc" ]})
           (mkBool [rc; mkCriteria ∅ ∅ {[ "_type" := "auditd" ]} ∅]
                   (Should (Query (buildAuditSearch c).1)) 1), None)
    ∧ buildSyslogSearch c =
        (mkQuery 0 100 (Some {[ "utctimestamp" := "asc" ]})
           (mkBool [rc; mkCriteria ∅ ∅ {[ "_type" := "event" ]} ∅;
                    mkCriteria ∅ ∅ {[ "category" := "syslog" ]} ∅]
                   (Should (Query (buildSyslogSearch c).1)) 1), None).
Proof.
  exists (rangeCriteria c). split.
  { cbn. by f_equal. }
  unfold buildAuditSearch, buildSyslogSearch, defaultSettings.
  destruct (String.eqb (hostmatch c) ""); cbn; repeat split; reflexivity.
Qed.

Lemma member_minimum_should_match (b : queryBool) :
  member "minimum_should_match" (marshalBool b) = Some (JNumber (MinShouldMatch b)).
Proof. destruct b as [[|m ms] [|s ss] n]; reflexivity. Qed.

Lemma member_should (b : queryBool) :
  member "should" (marshalBool b) =
  match Should b with
  | [] => None
  | _ => Some (JArray (map marshalCriteria (Should b)))
  end.
Proof. destruct b as [[|m ms] [|s ss] n]; reflexivity. Qed.

Lemma members_bool (q : queryContainer) (key : string) :
  members ["query"; "bool"; key] (marshalQuery q) = member key (marshalBool (Query q)).
Proof. reflexivity. Qed.

(** C9: whatever the criteria, the query built carries
    [minimum_should_match = 1], and the document it marshals to has the
    member [minimum_should_match] with the value 1 under [query.bool]; with
    an empty hostname pattern the member [should] is absent and
    [minimum_should_match] is still there.  The member is written for every
    value of the field, zero included. *)
Theorem minimum_should_match_marshalled (c : config) :
  (∀ b : queryBool,
     member "minimum_should_match" (marshalBool b) = Some (JNumber (MinShouldMatch b)))
  ∧ MinShouldMatch (Query (buildAuditSearch c).1) = 1
  ∧ MinShouldMatch (Query (buildSyslogSearch c).1) = 1
  ∧ members ["query"; "bool"; "minimum_should_match"]
      (marshalQuery (buildAuditSearch c).1) = Some (JNumber 1)
  ∧ members ["query"; "bool"; "minimum_should_match"]
      (marshalQuery (buildSyslogSearch c).1) = Some (JNumber 1)
  ∧ members ["query"; "bool"; "should"] (marshalQuery (buildAuditSearch c).1)
    = (if String.eqb (hostmatch c) "" then None
       else Some (JArray (map marshalCriteria (Should (Query (buildAuditSearch c).1)))))
  ∧ members ["query"; "bool"; "should"] (marshalQuery (buildSyslogSearch c).1)
    = (if String.eqb (hostmatch c) "" then None
       else Some (JArray (map marshalCriteria (Should (Query (buildSyslogSearch c).1))))).
Proof.
  split; [apply member_minimum_should_match|].
  rewrite !members_bool, !member_minimum_should_match, !member_should.
  unfold buildAuditSearch, buildSyslogSearch, defaultSettings.
  destruct (String.eqb (hostmatch c) ""); cbn; repeat split; reflexivity.
Qed.

(** ** Normalisation *)

Lemma fallback_empty (canonical source : string) :
  fallback canonical source = if String.eqb canonical "" then source else canonical.
Proof.
  unfold fallback.
  destruct (String.eqb_spec canonical ""), (String.eqb_spec source "");
    cbn; congruence.
Qed.

Lemma fallback_idem (canonical source : string) :
  fallback (fallback canonical source) source = fallback canonical source.
Proof.
  rewrite !fallback_empty.
  destruct (String.eqb_spec canonical "") as [->|Hc].
  - destruct (String.eqb_spec source ""); congruence.
  - destruct (String.eqb_spec canonical ""); congruence.
Qed.

(** [normalize], field by field. *)
Lemma normalize_fields (e : event) :
  normalize e =
  (mkEvent
     (if String.eqb (Details.Name (Details e)) "Unix Exec" then "execve"
      else Category e)
     (fallback (Hostname e) (Details.DHost (Details e)))
     (Timestamp e) (UTCTimestamp e)
     (Trim (Summary e) (" " +:+ nl))
     (Details.mk
        (Details.Hostname (Details e)) (Details.Command (Details e))
        (Details.DHost (Details e)) (Details.DProc (Details e))
        (Details.DUser (Details e)) (Details.SUser (Details e))
        (Details.Fname (Details e)) (Details.Name (Details e))
        (fallback (Details.ProcessName (Details e)) (Details.DProc (Details e)))
        (fallback (Details.OriginalUser (Details e)) (Details.SUser (Details e)))
        (fallback (Details.User (Details e)) (Details.DUser (Details e)))
        (fallback (Details.Path (Details e)) (Details.Fname (Details e)))),
   None).
Proof.
  destruct e as [cat host ts uts summ [dh cmd dhost dproc duser suser fname name pn ou u p]].
  unfold normalize, fallback. cbn.
  destruct (String.eqb host "" && negb (String.eqb dhost "")); cbn;
  destruct (String.eqb u "" && negb (String.eqb duser "")); cbn;
  destruct (String.eqb p "" && negb (String.eqb fname "")); cbn;
  destruct (String.eqb ou "" && negb (String.eqb suser "")); cbn;
  destruct (String.eqb pn "" && negb (String.eqb dproc "")); cbn;
  destruct (String.eqb name "Unix Exec"); reflexivity.
Qed.

(** C3, as the code has it: an empty [details.user] takes the value of
    [details.duser] (the destination user) and is left alone otherwise; an
    empty [details.originaluser] takes the value of [details.suser] (the
    source user) and is left alone otherwise; neither source field changes. *)
Theorem normalize_user_fallbacks (e : event) :
  let d := Details e in
  let d' := Details (normalize e).1 in
  Details.User d' = (if String.eqb (Details.User d) "" then Details.DUser d
                     else Details.User d)
  ∧ Details.OriginalUser d' =
      (if String.eqb (Details.OriginalUser d) "" then Details.SUser d
       else Details.OriginalUser d)
  ∧ Details.DUser d' = Details.DUser d
  ∧ Details.SUser d' = Details.SUser d.
Proof.
  rewrite normalize_fields. cbn. rewrite !fallback_empty. done.
Qed.

(** C3, as stated, fails: on [eventWithUsers] the empty [details.user]
    becomes the destination user ["root"], not the source user ["alice"]. *)
Lemma normalize_user_not_from_suser :
  ¬ (∀ e : event,
       Details.User (Details (normalize e).1) =
       if String.eqb (Details.User (Details e)) "" then Details.SUser (Details e)
       else Details.User (Details e)).
Proof. intros H. specialize (H eventWithUsers). discriminate H. Qed.

Section TrimFacts.

Variable cutset : string.

Lemma TrimLeft_idem (s : string) :
  TrimLeft (TrimLeft s cutset) cutset = TrimLeft s cutset.
Proof.
  induction s as [|c s IH]; cbn; [done|].
  destruct (inCutset cutset c) eqn:Hc; [done|].
  cbn. by rewrite Hc.
Qed.

Lemma TrimRight_idem (s : string) :
  TrimRight (TrimRight s cutset) cutset = TrimRight s cutset.
Proof.
  induction s as [|c s IH]; cbn; [done|].
  destruct (TrimRight s cutset) as [|c' r] eqn:Hr.
  - destruct (inCutset cutset c) eqn:Hc; cbn; by rewrite ?Hc.
  - cbn [TrimRight] in *. by rewrite IH.
Qed.

(** Trimming the two ends in either order gives the same string. *)
Lemma TrimRight_TrimLeft (s : string) :
  TrimRight (TrimLeft s cutset) cutset = TrimLeft (TrimRight s cutset) cutset.
Proof.
  induction s as [|c s IH]; cbn; [done|].
  destruct (inCutset cutset c) eqn:Hc.
  - rewrite IH. destruct (TrimRight s cutset); cbn; by rewrite ?Hc.
  - cbn. destruct (TrimRight s cutset); cbn; by rewrite Hc.
Qed.

Lemma Trim_idem (s : string) :
  Trim (Trim s cutset) cutset = Trim s cutset.
Proof.
  unfold Trim.
  by rewrite <- TrimRight_TrimLeft, TrimLeft_idem, TrimRight_TrimLeft, TrimRight_idem.
Qed.

End TrimFacts.

(** C7: normalising an event a second time changes nothing. *)
Theorem normalize_idempotent (e : event) :
  normalize (normalize e).1 = normalize e.
Proof.
  rewrite !normalize_fields. cbn -[Trim String.append nl fallback].
  rewrite !fallback_idem, Trim_idem.
  destruct (String.eqb (Details.Name (Details e)) "Unix Exec"); reflexivity.
Qed.

(** ** Rendering *)

(** C4, the example of the specification: [(none/root)] and the quoted
    command are there; and the slip: [eventLs] is normalised and has the
    process name ["ls"], yet its line has no [proc:] part, because
    [auditResults] tests [DProc] where it prints [ProcessName]. *)
Theorem auditEvstr_eventLs :
  (normalize eventLs).1 = eventLs
  ∧ Details.ProcessName (Details eventLs) = "ls"
  ∧ auditEvstr quoteASCII eventLs =
      "[execve] (none/root) command:" +:+ String dquote ("ls -la" +:+ String dquote "").
Proof. repeat split. Qed.

Lemma append_assoc (a b c : string) : (a +:+ b) +:+ c = a +:+ (b +:+ c).
Proof.
  induction a as [|x a IH]; [done|].
  cbv [String.append] in *. fold String.append in *. by rewrite IH.
Qed.

Lemma append_nil_r (a : string) : a +:+ "" = a.
Proof.
  induction a as [|x a IH]; [done|].
  cbv [String.append] in *. fold String.append in *. by rewrite IH.
Qed.

(** X5: what [auditResults] prints for an [execve] event, part by part: the
    [command:] and [path:] parts follow their own fields, the [proc:] part
    is guarded by [DProc]. *)
Lemma auditEvstr_execve (Quote : string → string) (x : event) :
  Category x = "execve" →
  auditEvstr Quote x =
  "[execve] ("
    +:+ (if String.eqb (Details.OriginalUser (Details x)) "" then "none"
         else Details.OriginalUser (Details x))
    +:+ "/" +:+ Details.User (Details x) +:+ ")"
    +:+ (if String.eqb (Details.Command (Details x)) "" then ""
         else " command:" +:+ Quote (Details.Command (Details x)))
    +:+ (if String.eqb (Details.DProc (Details x)) "" then ""
         else " proc:" +:+ Quote (Details.ProcessName (Details x)))
    +:+ (if String.eqb (Details.Path (Details x)) "" then ""
         else " path:" +:+ Quote (Details.Path (Details x))).
Proof.
  intros Hc. unfold auditEvstr. rewrite Hc.
  replace (String.eqb "execve" "execve") with true by reflexivity.
  destruct (String.eqb (Details.OriginalUser (Details x)) "");
  destruct (String.eqb (Details.Command (Details x)) "");
  destruct (String.eqb (Details.DProc (Details x)) "");
  destruct (String.eqb (Details.Path (Details x)) "");
  cbv [negb]; rewrite ?append_assoc, ?append_nil_r; reflexivity.
Qed.

(** ** [main] *)

Section MainFacts.

Context {Backend Source : Type}.
Variable Search : Backend → request → Backend * (list Source * error).
Variable Unmarshal : Source → event → event * error.
Variable Parse : string → string → time.Time * error.
Variable Now : time.Time.
Variable Quote : string → string.
Variable TimeString : time.Time → string.

(** C10, as the code has it: once the host is configured, the error of the
    missing mode is reported exactly when neither flag is set.  With both
    flags set the run is that of the audit flag alone: the error of the
    missing mode is not reported, the syslog branch is never taken, and once
    the dates parse the audit branch runs: [-n] prints the query of
    [buildAuditSearch], and otherwise [runQuery] searches with that query
    and the document type [auditd], its error is reported or its results go
    through [auditResults]. *)
Theorem missing_mode_iff (fuel : nat) (b : Backend) (env : string)
  (auditmode syslogmode : bool) (begindate enddate : string) (noop : bool)
  (hostmatch_ : string) :
  env ≠ "" →
  (missingMode
     (main Search Unmarshal Parse Now Quote TimeString fuel b env
        auditmode syslogmode begindate enddate noop hostmatch_)
   ↔ auditmode = false ∧ syslogmode = false)
  ∧ main Search Unmarshal Parse Now Quote TimeString fuel b env
      true true begindate enddate noop hostmatch_
    = main Search Unmarshal Parse Now Quote TimeString fuel b env
        true false begindate enddate noop hostmatch_
  ∧ ¬ missingMode
        (main Search Unmarshal Parse Now Quote TimeString fuel b env
           true true begindate enddate noop hostmatch_)
  ∧ outcomeMode
      (main Search Unmarshal Parse Now Quote TimeString fuel b env
         true true begindate enddate noop hostmatch_)
    ≠ Some Syslog
  ∧ ∀ c : config,
      parseDates Parse Now begindate enddate (setEshost env zeroConfig) = (c, None) →
      main Search Unmarshal Parse Now Quote TimeString fuel b env
        true true begindate enddate noop hostmatch_
      = (if noop
         then DryRun Audit (marshalQuery (buildAuditSearch (setHostmatch hostmatch_ c)).1)
         else
           match runQuery Search Unmarshal fuel
                   (mkWorld b (setHostmatch hostmatch_ c) [])
                   (buildAuditSearch (setHostmatch hostmatch_ c)).1 "auditd" with
           | None => Diverged
           | Some (w, Some err) => QueryFailed Audit w (errorLine err)
           | Some (w, None) => Printed Audit w (auditResults Quote TimeString (cfg w))
           end)
      ∧ (main Search Unmarshal Parse Now Quote TimeString fuel b env
           true true begindate enddate noop hostmatch_ ≠ Diverged →
         outcomeMode
           (main Search Unmarshal Parse Now Quote TimeString fuel b env
              true true begindate enddate noop hostmatch_)
         = Some Audit).
Proof.
  intros Henv. unfold missingMode, main, getESHost. cbn [eshost setEshost zeroConfig].
  destruct (String.eqb_spec env "") as [|_]; [done|].
  split; [|split; [|split; [|split]]].
  - destruct auditmode, syslogmode; cbn [negb andb].
    + split; [intros H; repeat case_match; discriminate H | intros [? _]; done].
    + split; [intros H; repeat case_match; discriminate H | intros [? _]; done].
    + split; [intros H; repeat case_match; discriminate H | intros [_ ?]; done].
    + done.
  - reflexivity.
  - cbn [negb andb]. intros H; repeat case_match; discriminate H.
  - cbn [negb andb]. repeat case_match; cbn; congruence.
  - intros c Hp. cbn [negb andb]. rewrite Hp.
    change (buildAuditSearch (setHostmatch hostmatch_ c))
      with ((buildAuditSearch (setHostmatch hostmatch_ c)).1, @None string).
    cbv iota beta. split; [reflexivity|].
    destruct noop; [done|].
    destruct (runQuery _ _ _ _ _ _) as [[w [e|]]|]; done.
Qed.

End MainFacts.

(** ** The paginated fetch *)

Lemma int_small (z : Z) : - 2 ^ 63 ≤ z < 2 ^ 63 → int z = z.
Proof.
  intros H. unfold int.
  rewrite Z.mod_small by lia. lia.
Qed.

Section FetchFacts.

Context {Backend Source : Type}.
Variable Search : Backend → request → Backend * (list Source * error).
Variable Unmarshal : Source → event → event * error.

Lemma runQueryIndex_hits_decoded (hits : list Source) (c : config) :
  Forall (decodes Unmarshal) hits →
  runQueryIndex_hits Unmarshal hits c =
  (setResults (results c ++ map (stored Unmarshal) hits) c, None).
Proof.
  intros H. revert c. induction H as [|x hits Hx _ IH]; intros c.
  - cbn. rewrite app_nil_r. by destruct c.
  - cbn [runQueryIndex_hits]. unfold decodes in Hx.
    destruct (Unmarshal x zeroEvent) as [nev err] eqn:Hu. cbn in Hx. subst err.
    rewrite normalize_fields. rewrite IH. cbn [results setResults].
    rewrite <- app_assoc. cbn [app map]. unfold stored at 2.
    rewrite Hu, normalize_fields. reflexivity.
Qed.

Lemma pageRequests_S (domain index doctype : string) (qry : queryContainer)
  (off : Z) (n : nat) :
  pageRequests domain index doctype qry off (S n) =
  mkRequest domain index doctype (setFrom off qry)
    :: pageRequests domain index doctype qry (off + docsPerSearch) n.
Proof.
  unfold pageRequests. cbn [seq map]. f_equal.
  - do 2 f_equal. lia.
  - rewrite <- seq_shift, map_map. apply map_ext. intros k.
    do 2 f_equal. unfold docsPerSearch. lia.
Qed.

Lemma runQueryIndex_loop_serves (index doctype : string) (qry : queryContainer)
  (pages : list (list Source)) :
  ∀ (fuel : nat) (w : world Backend) (off : Z) (b' : Backend),
    serves Search (backend w) (eshost (cfg w)) index doctype qry off pages b' →
    Forall (decodes Unmarshal) (concat pages) →
    - 2 ^ 63 ≤ off →
    off + docsPerSearch * Z.of_nat (length pages) < 2 ^ 63 →
    (length pages < fuel)%nat →
    runQueryIndex_loop Search Unmarshal fuel w (setFrom off qry) index doctype =
    Some (mkWorld b'
            (setResults (results (cfg w) ++ map (stored Unmarshal) (concat pages))
                        (cfg w))
            (sent w ++ pageRequests (eshost (cfg w)) index doctype qry off
                         (S (length pages))),
          None).
Proof.
  induction pages as [|p pages IH]; intros fuel w off b' Hs Hd Hlo Hhi Hfuel;
    (destruct fuel as [|fuel]; [cbn in Hfuel; lia|]); cbn [serves] in Hs;
    cbn [runQueryIndex_loop].
  - rewrite Hs. cbn. rewrite app_nil_r.
    change (Z.of_nat 0 =? 0) with true. cbv iota.
    replace (off + docsPerSearch * Z.of_nat 0) with off by (unfold docsPerSearch; lia).
    do 3 f_equal. by destruct w as [? [] ?].
  - destruct Hs as (Hp & b1 & HS & Hs). rewrite HS.
    cbn [concat] in Hd. apply Forall_app in Hd as [Hdp Hd].
    destruct (Z.eqb_spec (Z.of_nat (length p)) 0) as [H0|_].
    { destruct p; [done | cbn in H0; lia]. }
    rewrite runQueryIndex_hits_decoded by done.
    cbn [backend cfg sent From setFrom Size Sort Query].
    change (setFrom (int (off + docsPerSearch)) (setFrom off qry))
      with (setFrom (int (off + docsPerSearch)) qry).
    cbn [length] in Hhi, Hfuel. unfold docsPerSearch in *.
    rewrite int_small by lia.
    rewrite (IH fuel _ (off + 100) b'); cbn [backend cfg sent eshost setResults results];
      [|done|done|lia|lia|lia].
    cbn [concat length]. rewrite (pageRequests_S _ _ _ _ off), <- !app_assoc, map_app.
    reflexivity.
Qed.

(** C1: when the backend answers the successive requests for one index with
    pages that are not empty, of whatever sizes, and then with an empty page,
    and the documents decode, the fetch returns without error after one
    request per page and one for the empty page, the offsets being 0, 100,
    200, ...; every document of every page is appended, normalised, to the
    results.  (The count of pages is such that the offset, an [int], does
    not wrap.) *)
Theorem fetch_pages (fuel : nat) (w : world Backend) (qry : queryContainer)
  (index doctype : string) (pages : list (list Source)) (b' : Backend) :
  serves Search (backend w) (eshost (cfg w)) index doctype qry 0 pages b' →
  Forall (decodes Unmarshal) (concat pages) →
  docsPerSearch * Z.of_nat (length pages) < 2 ^ 63 →
  (length pages < fuel)%nat →
  runQueryIndex Search Unmarshal fuel w qry index doctype =
  Some (mkWorld b'
          (setResults (results (cfg w) ++ map (stored Unmarshal) (concat pages))
                      (cfg w))
          (sent w ++ pageRequests (eshost (cfg w)) index doctype qry 0
                       (S (length pages))),
        None).
Proof.
  intros Hs Hd Hhi Hfuel. unfold runQueryIndex.
  apply runQueryIndex_loop_serves; [done|done|lia|lia|done].
Qed.

(** A fetch returns without error only after an empty page: the last request
    it sent was answered with no hit. *)
Lemma runQueryIndex_loop_ends_empty (index doctype : string) (fuel : nat) :
  ∀ (w w' : world Backend) (qry : queryContainer),
    runQueryIndex_loop Search Unmarshal fuel w qry index doctype = Some (w', None) →
    ∃ (rq : request) (b : Backend),
      last (sent w') = Some rq ∧ reqIndex rq = index
      ∧ Search b rq = (backend w', ([], None)).
Proof.
  induction fuel as [|fuel IH]; intros w w' qry H; [done|].
  cbn [runQueryIndex_loop] in H.
  destruct (Search _ _) as [b [hits [e|]]] eqn:HS; [done|].
  destruct (Z.eqb_spec (Z.of_nat (length hits)) 0) as [H0|_].
  { destruct hits; [|cbn in H0; lia]. inversion H; subst. cbn [sent backend].
    eexists _, _. split; [apply last_snoc|]. split; [done|]. exact HS. }
  destruct (runQueryIndex_hits _ _ _) as [c [e|]]; [done|].
  by apply IH in H.
Qed.

(** A fetch sends requests for its own index only. *)
Lemma runQueryIndex_loop_sent (index doctype : string) (fuel : nat) :
  ∀ (w w' : world Backend) (qry : queryContainer) (err : error),
    runQueryIndex_loop Search Unmarshal fuel w qry index doctype = Some (w', err) →
    ∃ block, sent w' = sent w ++ block ∧ onIndex index block.
Proof.
  induction fuel as [|fuel IH]; intros w w' qry err H; [done|].
  cbn [runQueryIndex_loop] in H.
  destruct (Search _ _) as [b [hits [e|]]].
  { inversion H; subst. cbn. eexists; split; [done|]. by repeat constructor. }
  destruct (Z.of_nat (length hits) =? 0).
  { inversion H; subst. cbn. eexists; split; [done|]. by repeat constructor. }
  destruct (runQueryIndex_hits _ _ _) as [c [e|]].
  { inversion H; subst. cbn. eexists; split; [done|]. by repeat constructor. }
  apply IH in H as (block & -> & Hb). cbn [sent].
  eexists. rewrite <- app_assoc. split; [done|].
  apply Forall_app. split; [by repeat constructor|done].
Qed.

(** The indices a run went through without error were fetched one after
    the other, in the order of the list. *)
Lemma runQuery_range_sent (fuel : nat) (qry : queryContainer) (doctype : string)
  (indices : list string) :
  ∀ w w' : world Backend,
    runQuery_range Search Unmarshal fuel w qry doctype indices = Some (w', None) →
    ∃ blocks, sent w' = sent w ++ concat blocks ∧ Forall2 onIndex indices blocks.
Proof.
  induction indices as [|x indices IH]; intros w w' H; cbn [runQuery_range] in H.
  - inversion H; subst. exists []. cbn. by rewrite app_nil_r.
  - destruct (runQueryIndex _ _ _ _ _ _ _) as [[w1 [e|]]|] eqn:Hx; [done| |done].
    apply runQueryIndex_loop_sent in Hx as (block & Hw1 & Hb).
    apply IH in H as (blocks & -> & Hbs).
    exists (block :: blocks). rewrite Hw1, <- app_assoc. by split; [|constructor].
Qed.

(** C8: the indices are fetched in the order of the list, and the run stops
    at the first index whose fetch fails: when the fetches of the indices
    [pre] succeed and the fetch of the next index [x] fails with [e], the run
    over [pre ++ x :: post] returns [e] itself and ends in the very state
    the failed fetch left, so that nothing is sent for [post]; the requests
    sent form one block per index of [pre ++ [x]], in this order. *)
Theorem runQuery_range_stops (fuel : nat) (qry : queryContainer) (doctype : string)
  (pre post : list string) (x : string) (w w1 w2 : world Backend) (e : string) :
  runQuery_range Search Unmarshal fuel w qry doctype pre = Some (w1, None) →
  runQueryIndex Search Unmarshal fuel w1 qry x doctype = Some (w2, Some e) →
  runQuery_range Search Unmarshal fuel w qry doctype (pre ++ x :: post)
  = Some (w2, Some e)
  ∧ ∃ blocks, sent w2 = sent w ++ concat blocks
              ∧ Forall2 onIndex (pre ++ [x]) blocks.
Proof.
  intros Hpre Hx. split.
  - revert w Hpre. induction pre as [|y pre IH]; intros w Hpre;
      cbn [runQuery_range app] in *.
    + inversion Hpre; subst. by rewrite Hx.
    + destruct (runQueryIndex _ _ _ _ _ y _) as [[w' [e'|]]|]; [done| |done].
      by apply IH.
  - apply runQuery_range_sent in Hpre as (blocks & Hw1 & Hbs).
    apply runQueryIndex_loop_sent in Hx as (block & Hw2 & Hb).
    exists (blocks ++ [block]). rewrite Hw2, Hw1, concat_app, <- app_assoc. cbn.
    rewrite app_nil_r. split; [done|].
    apply Forall2_app; [done|]. by repeat constructor.
Qed.

End FetchFacts.

(** ** The calendar *)

Lemma isLeap_iff (y : Z) :
  time.isLeap y = true ↔ y mod 4 = 0 ∧ (y mod 100 ≠ 0 ∨ y mod 400 = 0).
Proof.
  unfold time.isLeap.
  rewrite andb_true_iff, orb_true_iff, negb_true_iff, !Z.eqb_eq, Z.eqb_neq.
  dlia.
Qed.

(** The year and the day of the year of a day number: the day lies within
    the year, and the days before the year and the day of the year add up to
    the day number. *)
Lemma yearDay_spec (d : Z) :
  0 ≤ (time.yearDay d).2 < 365 + (if time.isLeap (time.yearDay d).1 then 1 else 0)
  ∧ d = daysBeforeYear (time.yearDay d).1 + (time.yearDay d).2.
Proof.
  pose proof (isLeap_iff (time.yearDay d).1) as HL.
  destruct (time.isLeap (time.yearDay d).1).
  - destruct HL as [HL _]. specialize (HL eq_refl). revert HL.
    unfold time.yearDay, daysBeforeYear, time.daysPer400Years,
      time.daysPer100Years, time.daysPer4Years.
    cbv zeta. cbn [fst snd]. rewrite !Z.shiftr_div_pow2 by lia. dlia.
  - assert (HL' : ¬ ((time.yearDay d).1 mod 4 = 0
                     ∧ ((time.yearDay d).1 mod 100 ≠ 0
                        ∨ (time.yearDay d).1 mod 400 = 0))).
    { intros H. apply HL in H. discriminate. }
    clear HL. revert HL'.
    unfold time.yearDay, daysBeforeYear, time.daysPer400Years,
      time.daysPer100Years, time.daysPer4Years.
    cbv zeta. cbn [fst snd]. rewrite !Z.shiftr_div_pow2 by lia. dlia.
Qed.

Lemma monthDay_ok_all (leap : bool) :
  forallb (fun k => monthDay_ok leap (Z.of_nat k))
          (seq 0 (if leap then 366 else 365)) = true.
Proof. destruct leap; vm_compute; reflexivity. Qed.

(** The month and the day of a day of the year are a month and a day of the
    calendar, and give the day of the year back. *)
Lemma monthDay_spec (leap : bool) (yday : Z) :
  0 ≤ yday < 365 + (if leap then 1 else 0) →
  1 ≤ (time.monthDay leap yday).1 ≤ 12
  ∧ 1 ≤ (time.monthDay leap yday).2 ≤ 31
  ∧ yday = ydayOf leap (time.monthDay leap yday).1 (time.monthDay leap yday).2.
Proof.
  intros H. pose proof (monthDay_ok_all leap) as Hall.
  rewrite forallb_forall in Hall.
  specialize (Hall (Z.to_nat yday)).
  rewrite Z2Nat.id in Hall by lia. unfold monthDay_ok in Hall.
  destruct (time.monthDay leap yday) as [m dd]. cbn [fst snd].
  assert (Hin : In (Z.to_nat yday) (seq 0 (if leap then 366 else 365))).
  { apply in_seq. destruct leap; lia. }
  apply Hall in Hin. rewrite !andb_true_iff, !Z.leb_le, Z.eqb_eq in Hin. lia.
Qed.

(** A date has a month and a day of the calendar, and determines its day
    number. *)
Lemma absDate_spec (d : Z) :
  1 ≤ (time.absDate d).1.2 ≤ 12
  ∧ 1 ≤ (time.absDate d).2 ≤ 31
  ∧ daysOfDate (time.absDate d) = d.
Proof.
  unfold time.absDate, daysOfDate.
  destruct (yearDay_spec d) as [Hyd Hd].
  destruct (time.yearDay d) as [y yd]. cbn [fst snd] in *.
  destruct (monthDay_spec (time.isLeap y) yd Hyd) as (Hm & Hdd & Hy).
  destruct (time.monthDay (time.isLeap y) yd) as [m dd]. cbn [fst snd] in *.
  lia.
Qed.

Lemma absDate_inj (d1 d2 : Z) : time.absDate d1 = time.absDate d2 → d1 = d2.
Proof.
  intros H. rewrite <- (proj2 (proj2 (absDate_spec d1))),
              <- (proj2 (proj2 (absDate_spec d2))). by rewrite H.
Qed.

(** ** The formats *)

Lemma length_append (a b : string) :
  String.length (a +:+ b) = (String.length a + String.length b)%nat.
Proof.
  induction a as [|x a IH]; [done|].
  cbv [String.append] in *; fold String.append in *. cbn. by rewrite IH.
Qed.

(** Two strings that end with parts of the same length agree part by
    part. *)
Lemma append_inj_length (a a' b b' : string) :
  a +:+ b = a' +:+ b' → String.length b = String.length b' → a = a' ∧ b = b'.
Proof.
  revert a'. induction a as [|x a IH]; intros [|x' a'] H Hl.
  - done.
  - change (b = String x' (a' +:+ b')) in H.
    subst b. cbn in Hl. rewrite length_append in Hl. lia.
  - change (String x (a +:+ b) = b') in H.
    subst b'. cbn in Hl. rewrite length_append in Hl. lia.
  - change (String x a +:+ b) with (String x (a +:+ b)) in H.
    change (String x' a' +:+ b') with (String x' (a' +:+ b')) in H.
    injection H as -> H. destruct (IH _ H Hl) as [-> ->]. done.
Qed.

Lemma decodeN_digits (u : N) : decodeN (time.digits u) = Some u.
Proof.
  unfold decodeN, time.digits, NilZero.string_of_uint.
  destruct (N.to_uint u) eqn:Hu.
  { destruct u; [done|]. cbn in Hu. by apply DecimalPos.Unsigned.to_uint_nonnil in Hu. }
  all: rewrite <- Hu, NilEmpty.usu; cbn; by rewrite DecimalN.Unsigned.of_to.
Qed.

Lemma decodeN_zeros (k : nat) (s : string) :
  decodeN (time.zeros k +:+ s) = decodeN s.
Proof.
  induction k as [|k IH]; [done|].
  change (time.zeros (S k) +:+ s) with (String "0" (time.zeros k +:+ s)).
  unfold decodeN in *. cbn [NilEmpty.uint_of_string].
  destruct (NilEmpty.uint_of_string (time.zeros k +:+ s)) as [d|]; [|done].
  rewrite <- IH. reflexivity.
Qed.

(** [appendInt] can be read back. *)
Lemma decodeZ_appendInt (x : Z) (width : nat) :
  decodeZ (time.appendInt x width) = Some x.
Proof.
  unfold time.appendInt.
  set (u := Z.to_N (Z.abs x)).
  pose proof (decodeN_zeros (width - String.length (time.digits u)) (time.digits u)) as Hd.
  rewrite decodeN_digits in Hd.
  destruct (Z.ltb_spec x 0) as [Hx|Hx].
  - change ("-" +:+ ?s) with (String "-" s). cbn [decodeZ].
    rewrite Hd. cbn. f_equal. lia.
  - change ("" +:+ ?s) with s.
    destruct (time.zeros _ +:+ time.digits u) as [|a s] eqn:Hs.
    + cbn in *. injection Hd as Hd. f_equal. lia.
    + assert (Ha : a ≠ "-"%char).
      { intros ->. unfold decodeN in Hd. cbn in Hd.
        destruct (NilEmpty.uint_of_string s); discriminate. }
      assert (Hz : decodeZ (String a s) = Z.of_N <$> decodeN (String a s)).
      { unfold decodeZ. destruct a as [[] [] [] [] [] [] [] []]; try reflexivity.
        done. }
      rewrite Hz, Hd. cbn. f_equal. lia.
Qed.

Lemma appendInt_inj (x y : Z) (width : nat) :
  time.appendInt x width = time.appendInt y width → x = y.
Proof.
  intros H. apply (f_equal decodeZ) in H.
  rewrite !decodeZ_appendInt in H. congruence.
Qed.

Lemma length_appendInt_2 (x : Z) :
  0 ≤ x < 100 → String.length (time.appendInt x 2) = 2%nat.
Proof.
  intros H.
  assert (Hall : forallb (fun k => Nat.eqb (String.length (time.appendInt (Z.of_nat k) 2)) 2)
                         (seq 0 100) = true) by (vm_compute; reflexivity).
  rewrite forallb_forall in Hall. specialize (Hall (Z.to_nat x)).
  rewrite Z2Nat.id in Hall by lia. apply Nat.eqb_eq, Hall, in_seq. lia.
Qed.

Lemma length_zeros (k : nat) : String.length (time.zeros k) = k.
Proof. induction k as [|k IH]; cbn; congruence. Qed.

Lemma length_appendInt_ge (x : Z) (width : nat) :
  (width ≤ String.length (time.appendInt x width))%nat.
Proof. unfold time.appendInt. rewrite !length_append, length_zeros. lia. Qed.

Lemma dayIndex_form (d : Z) : eventsYYYYMMDD (dayIndex d).
Proof.
  unfold dayIndex. destruct (absDate_spec d) as (Hm & Hd & _).
  destruct (time.absDate d) as [[y m] dd]. cbn [fst snd] in *.
  exists y, m, dd. repeat split; try lia.
  - apply length_appendInt_ge.
  - apply length_appendInt_2. lia.
  - apply length_appendInt_2. lia.
Qed.

(** Days that differ have names that differ. *)
Lemma dayIndex_inj (d1 d2 : Z) : dayIndex d1 = dayIndex d2 → d1 = d2.
Proof.
  unfold dayIndex. intros H. apply (inj (String.append "events-")) in H.
  apply absDate_inj.
  destruct (absDate_spec d1) as (Hm1 & Hd1 & _), (absDate_spec d2) as (Hm2 & Hd2 & _).
  destruct (time.absDate d1) as [[y1 m1] dd1], (time.absDate d2) as [[y2 m2] dd2].
  cbn [fst snd time.format20060102] in *.
  apply append_inj_length in H as [Hy H].
  2:{ rewrite !length_append, !length_appendInt_2 by lia. done. }
  apply append_inj_length in H as [Hm Hdd].
  2:{ rewrite !length_appendInt_2 by lia. done. }
  apply appendInt_inj in Hy, Hm, Hdd. congruence.
Qed.

(** ** The index enumeration *)

Lemma indexName_dayIndex (t : time.Time) : indexName t = dayIndex (time.days t).
Proof. reflexivity. Qed.

(** The saturation of [Sub] does not show in the comparison with a day. *)
Lemma Sub_lt_day (t u : time.Time) :
  (time.Sub t u <? time.Hour * 24) = (t - u <? time.Hour * 24).
Proof.
  unfold time.Sub, time.minDuration, time.maxDuration, time.Hour, time.Second.
  repeat case_match; lia.
Qed.

Lemma days_Add_day (t : time.Time) :
  time.days (time.Add t (time.Hour * 24)) = time.days t + 1.
Proof.
  unfold time.days, time.Add, time.unixSec, time.Hour, time.Second,
    time.secondsPerDay. dlia.
Qed.

(** An instant less than a day later falls on the same day or on the
    next. *)
Lemma days_within_day (t u : time.Time) :
  0 ≤ u - t < time.Hour * 24 →
  time.days u = time.days t ∨ time.days u = time.days t + 1.
Proof.
  unfold time.days, time.unixSec, time.Hour, time.Second, time.secondsPerDay. dlia.
Qed.

Lemma runQuery_indices_run (c : config) (n : nat) :
  ∀ (fuel : nat) (dp : time.Time) (acc : list string),
    0 ≤ endDate c - dp - Z.of_nat n * (time.Hour * 24) < time.Hour * 24 →
    (n < fuel)%nat →
    runQuery_indices fuel c dp acc =
    Some (let l := acc ++ (dayIndex <$> seqZ (time.days dp) (Z.of_nat (S n))) in
          if existsb (String.eqb (indexName (endDate c))) l then l
          else l ++ [indexName (endDate c)]).
Proof.
  induction n as [|n IH]; intros fuel dp acc Hn Hfuel;
    (destruct fuel as [|fuel]; [lia|]); cbn [runQuery_indices];
    rewrite Sub_lt_day.
  - destruct (Z.ltb_spec (endDate c - dp) (time.Hour * 24)) as [_|H]; [|tlia].
    cbv zeta. change (seqZ (time.days dp) (Z.of_nat 1)) with [time.days dp].
    cbn [fmap list_fmap]. rewrite indexName_dayIndex.
    by destruct (existsb _ _).
  - destruct (Z.ltb_spec (endDate c - dp) (time.Hour * 24)) as [H|_]; [tlia|].
    rewrite IH; [|tlia|lia].
    rewrite days_Add_day, (seqZ_cons (time.days dp) (Z.of_nat (S (S n)))) by lia.
    cbv zeta. rewrite fmap_cons, <- !app_assoc, indexName_dayIndex.
    replace (Z.pred (Z.of_nat (S (S n)))) with (Z.of_nat (S n)) by lia.
    reflexivity.
Qed.

Lemma existsb_dayIndex (d : Z) (ds : list Z) :
  existsb (String.eqb (dayIndex d)) (dayIndex <$> ds) = bool_decide (d ∈ ds).
Proof.
  induction ds as [|d' ds IH]; [done|].
  cbn [fmap list_fmap existsb]. fold (list_fmap _ _ dayIndex ds).
  change (list_fmap Z string dayIndex ds) with (dayIndex <$> ds). rewrite IH.
  destruct (String.eqb_spec (dayIndex d) (dayIndex d')) as [H|H].
  - apply dayIndex_inj in H as ->. symmetry. apply bool_decide_eq_true. by left.
  - cbn. apply bool_decide_ext. rewrite elem_of_cons.
    split; [by right|]. intros [->|?]; done.
Qed.

(** C2: for a start that is not after the end, the first loop of [runQuery]
    comes to its end, within one turn more than there are whole days between
    the two, and gives the names of the days from the day of the start to the
    day of the end, one name a day, in this order: every name has the form
    [events-YYYYMMDD], the list is not empty and has no name twice, its first
    name is that of the day of the start, its last that of the day of the
    end, and one name is all there is when the two fall on one day. *)
Theorem runQuery_indices_range (c : config) :
  startDate c ≤ endDate c →
  ∃ l : list string,
    (∀ fuel : nat,
       (Z.to_nat ((endDate c - startDate c) / (time.Hour * 24)) < fuel)%nat →
       runQuery_indices fuel c (startDate c) [] = Some l)
    ∧ l = dayIndex <$> seqZ (time.days (startDate c))
                         (time.days (endDate c) - time.days (startDate c) + 1)
    ∧ Forall eventsYYYYMMDD l
    ∧ l ≠ []
    ∧ NoDup l
    ∧ head l = Some ("events-" +:+ time.Format20060102 (startDate c))
    ∧ last l = Some ("events-" +:+ time.Format20060102 (endDate c))
    ∧ (time.Date (startDate c) = time.Date (endDate c) →
       l = ["events-" +:+ time.Format20060102 (startDate c)]).
Proof.
  intros Hle.
  set (n := Z.to_nat ((endDate c - startDate c) / (time.Hour * 24))).
  set (d0 := time.days (startDate c)).
  set (d1 := time.days (endDate c)).
  assert (Hn : 0 ≤ endDate c - startDate c - Z.of_nat n * (time.Hour * 24)
               < time.Hour * 24).
  { subst n. rewrite Z2Nat.id; unfold time.Hour, time.Second; dlia. }
  assert (Hd : d1 = d0 + Z.of_nat n ∨ d1 = d0 + Z.of_nat n + 1).
  { subst d0 d1.
    replace (time.days (startDate c) + Z.of_nat n)
      with (time.days (startDate c + Z.of_nat n * (time.Hour * 24))).
    - apply days_within_day. tlia.
    - unfold time.days, time.unixSec, time.Hour, time.Second, time.secondsPerDay.
      dlia. }
  exists (dayIndex <$> seqZ d0 (d1 - d0 + 1)).
  split; [|split; [done|]].
  { intros fuel Hfuel. rewrite (runQuery_indices_run c n) by done.
    cbv zeta. rewrite app_nil_l, indexName_dayIndex, existsb_dayIndex. f_equal.
    fold d0 d1. destruct Hd as [Hd|Hd].
    - rewrite bool_decide_eq_true_2 by (apply elem_of_seqZ; lia).
      do 2 f_equal. lia.
    - rewrite bool_decide_eq_false_2 by (rewrite elem_of_seqZ; lia).
      replace (d1 - d0 + 1) with (Z.of_nat (S n) + 1) by lia.
      rewrite seqZ_app, fmap_app by lia. do 2 f_equal.
      change (seqZ (d0 + Z.of_nat (S n)) 1) with [d0 + Z.of_nat (S n)].
      cbn. do 2 f_equal. lia. }
  assert (Hcons : seqZ d0 (d1 - d0 + 1) = d0 :: seqZ (Z.succ d0) (d1 - d0)).
  { rewrite seqZ_cons by lia. do 2 f_equal. lia. }
  assert (Hsnoc : seqZ d0 (d1 - d0 + 1) = seqZ d0 (d1 - d0) ++ [d1]).
  { rewrite seqZ_app by lia. f_equal.
    change (seqZ (d0 + (d1 - d0)) 1) with [d0 + (d1 - d0)]. f_equal. lia. }
  split; [apply Forall_fmap, Forall_forall; intros d _; apply dayIndex_form|].
  repeat split.
  - by rewrite Hcons.
  - apply NoDup_fmap_2; [|apply NoDup_seqZ]. intros ??. apply dayIndex_inj.
  - by rewrite Hcons.
  - rewrite Hsnoc, fmap_app. apply last_snoc.
  - intros Hsame. unfold time.Date in Hsame. apply absDate_inj in Hsame.
    fold d0 d1 in Hsame. rewrite Hcons, <- Hsame, Z.sub_diag. reflexivity.
Qed.

(** ** The statements at work *)

Lemma runQuery_indices_range_witness :
  startDate stubConfig ≤ endDate stubConfig
  ∧ ∃ l : list string,
      (∀ fuel : nat,
         (Z.to_nat ((endDate stubConfig - startDate stubConfig) / (time.Hour * 24))
          < fuel)%nat →
         runQuery_indices fuel stubConfig (startDate stubConfig) [] = Some l)
      ∧ l = dayIndex <$> seqZ (time.days (startDate stubConfig))
                           (time.days (endDate stubConfig)
                            - time.days (startDate stubConfig) + 1)
      ∧ Forall eventsYYYYMMDD l
      ∧ l ≠ []
      ∧ NoDup l
      ∧ head l = Some ("events-" +:+ time.Format20060102 (startDate stubConfig))
      ∧ last l = Some ("events-" +:+ time.Format20060102 (endDate stubConfig))
      ∧ (time.Date (startDate stubConfig) = time.Date (endDate stubConfig) →
         l = ["events-" +:+ time.Format20060102 (startDate stubConfig)]).
Proof.
  assert (H : startDate stubConfig ≤ endDate stubConfig) by (vm_compute; discriminate).
  split; [exact H | exact (runQuery_indices_range stubConfig H)].
Defined.

Example runQuery_indices_stubConfig :
  runQuery_indices 2 stubConfig (startDate stubConfig) []
  = Some ["events-20150301"; "events-20150302"].
Proof. reflexivity. Qed.

Example runQuery_indices_same_day :
  runQuery_indices 1 (setEndDate 1425168000000000000 stubConfig)
    1425168000000000000 []
  = Some ["events-20150301"].
Proof. reflexivity. Qed.

Lemma fetch_pages_witness :
  ∃ w' : world (list (list event * error)),
    runQueryIndex stubSearch stubUnmarshal 4
      (stubWorld [stubPage 100; stubPage 100; stubPage 37; stubPage 0])
      (buildAuditSearch stubConfig).1 "events-20150301" "auditd"
    = Some (w', None)
    ∧ map (fun rq => From (reqQuery rq)) (sent w') = [0; 100; 200; 300]
    ∧ length (results (cfg w')) = 237%nat
    ∧ backend w' = [].
Proof.
  eexists. split.
  - apply (fetch_pages stubSearch stubUnmarshal 4
             (stubWorld [stubPage 100; stubPage 100; stubPage 37; stubPage 0])
             (buildAuditSearch stubConfig).1 "events-20150301" "auditd"
             stubPages []).
    + cbn [serves stubPages].
      repeat first [ split; [discriminate|] | eexists; split; [reflexivity|] ].
      reflexivity.
    + apply Forall_forall. intros src _. reflexivity.
    + vm_compute. reflexivity.
    + vm_compute. lia.
  - vm_compute. repeat split; reflexivity.
Defined.

Lemma runQuery_range_stops_witness :
  ∃ w2 : world (list (list event * error)),
    runQuery_range stubSearch stubUnmarshal 3 (stubWorld stubFailing)
      (buildAuditSearch stubConfig).1 "auditd"
      (["events-20150301"] ++ "events-20150302" :: ["events-20150303"])
    = Some (w2, Some "connection refused")
    ∧ map reqIndex (sent w2)
      = ["events-20150301"; "events-20150301"; "events-20150302"]
    ∧ backend w2 = [stubPage 0].
Proof.
  eexists. split.
  - refine (proj1 (runQuery_range_stops stubSearch stubUnmarshal 3
                     (buildAuditSearch stubConfig).1 "auditd"
                     ["events-20150301"] ["events-20150303"] "events-20150302"
                     (stubWorld stubFailing) _ _ "connection refused" _ _));
      reflexivity.
  - vm_compute. repeat split; reflexivity.
Defined.

Lemma missing_mode_iff_witness :
  "localhost:9200" ≠ ""
  ∧ (missingMode (main stubSearch stubUnmarshal stubParse 0 quoteASCII
                    stubTimeString 3 stubTwoDays "localhost:9200" false false
                    "2015-03-01 00:00:00" "2015-03-02 12:00:00" false "")
     ↔ false = false ∧ false = false)
  ∧ ¬ missingMode (main stubSearch stubUnmarshal stubParse 0 quoteASCII
                     stubTimeString 3 stubTwoDays "localhost:9200" true true
                     "2015-03-01 00:00:00" "2015-03-02 12:00:00" false "")
  ∧ outcomeMode (main stubSearch stubUnmarshal stubParse 0 quoteASCII
                   stubTimeString 3 stubTwoDays "localhost:9200" true true
                   "2015-03-01 00:00:00" "2015-03-02 12:00:00" false "")
    = Some Audit.
Proof.
  assert (Henv : "localhost:9200" ≠ "") by discriminate.
  split; [exact Henv|]. split.
  - exact (proj1 (missing_mode_iff stubSearch stubUnmarshal stubParse 0 quoteASCII
                    stubTimeString 3 stubTwoDays "localhost:9200" false false
                    "2015-03-01 00:00:00" "2015-03-02 12:00:00" false "" Henv)).
  - destruct (missing_mode_iff stubSearch stubUnmarshal stubParse 0 quoteASCII
                stubTimeString 3 stubTwoDays "localhost:9200" true true
                "2015-03-01 00:00:00" "2015-03-02 12:00:00" false "" Henv)
      as (_ & _ & Hno & _ & Hrun).
    split; [exact Hno|].
    refine (proj2 (Hrun _ _) _); [reflexivity|].
    vm_compute. discriminate.
Defined.

(** C10, as stated, fails: with no host configured and neither flag set,
    [main] ends on the error of the missing host, not on that of the missing
    mode; and with both flags set an error is still reported when a date
    does not parse. *)
Lemma missing_mode_not_without_host :
  ¬ (missingMode (main stubSearch stubUnmarshal stubParse 0 quoteASCII
                    stubTimeString 3 stubTwoDays "" false false
                    "2015-03-01 00:00:00" "2015-03-02 12:00:00" false "")
     ↔ false = false ∧ false = false)
  ∧ main stubSearch stubUnmarshal stubParse 0 quoteASCII stubTimeString 3
      stubTwoDays "" false false
      "2015-03-01 00:00:00" "2015-03-02 12:00:00" false ""
    = NoHost ("error: MOZDEFESHOST environment variable not set" +:+ nl)
  ∧ main stubSearch stubUnmarshal stubParse 0 quoteASCII stubTimeString 3
      stubTwoDays "localhost:9200" true true
      "yesterday" "2015-03-02 12:00:00" false ""
    = BadDates ("error: parsing time: bad value" +:+ nl).
Proof.
  split; [|split; reflexivity].
  intros [_ H]. specialize (H (conj eq_refl eq_refl)). discriminate H.
Qed.

(** A run in audit mode with both flags set, on a backend with one [execve]
    event. *)
Example main_both_flags :
  ∃ w, main stubSearch stubUnmarshal stubParse 0 quoteASCII stubTimeString 3
         [([eventLs], None); stubPage 0; stubPage 0] "localhost:9200" true true
         "2015-03-01 00:00:00" "2015-03-02 12:00:00" false ""
       = Printed Audit w
           ["0001-01-01 00:00:00 +0000 UTC web1 [execve] (none/root) command:"
              +:+ String dquote ("ls -la" +:+ String dquote nl)].
Proof. eexists. vm_compute. reflexivity. Qed.

(** The rule name [Unix Exec] forces the category, whatever it was. *)
Example normalize_unix_exec :
  Category (normalize (mkEvent "" "" zeroTime zeroTime ""
                         (Details.mk "" "" "" "" "" "" "" "Unix Exec" "" "" "" ""))).1
  = "execve".
Proof. reflexivity. Qed.

(** An empty host name falls back to [details.dhost]; the summary is
    trimmed. *)
Example normalize_hostname_dhost :
  let e := (normalize (mkEvent "syslog" "" zeroTime zeroTime (" started " +:+ nl)
                         (Details.mk "" "" "web1" "" "" "" "" "" "" "" "" ""))).1 in
  Hostname e = "web1" ∧ Summary e = "started".
Proof. split; reflexivity. Qed.

(** A line of [syslogResults]. *)
Example syslogLine_example :
  syslogLine stubTimeString
    (mkEvent "syslog" "" zeroTime zeroTime "started"
       (Details.mk "web1" "" "" "" "" "" "" "" "" "" "" ""))
  = "0001-01-01 00:00:00 +0000 UTC web1 [syslog] started" +:+ nl.
Proof. reflexivity. Qed.

(** * Further properties *)

(** ** Normalisation, field by field *)

(** X1: the host name, the path and the process name are filled from
    [details.dhost], [details.fname] and [details.dproc] when they are empty
    and are left alone otherwise; the raw fields, the command, the host name
    of the details and the two instants go through unchanged. *)
Theorem normalize_other_fallbacks (e : event) :
  let e' := (normalize e).1 in
  let d := Details e in
  let d' := Details e' in
  Hostname e' = (if String.eqb (Hostname e) "" then Details.DHost d else Hostname e)
  ∧ Details.Path d' = (if String.eqb (Details.Path d) "" then Details.Fname d
                       else Details.Path d)
  ∧ Details.ProcessName d' =
      (if String.eqb (Details.ProcessName d) "" then Details.DProc d
       else Details.ProcessName d)
  ∧ Details.DHost d' = Details.DHost d ∧ Details.Fname d' = Details.Fname d
  ∧ Details.DProc d' = Details.DProc d ∧ Details.Name d' = Details.Name d
  ∧ Details.Command d' = Details.Command d
  ∧ Details.Hostname d' = Details.Hostname d
  ∧ Timestamp e' = Timestamp e ∧ UTCTimestamp e' = UTCTimestamp e.
Proof.
  rewrite normalize_fields. cbn -[fallback]. rewrite !fallback_empty.
  repeat split; reflexivity.
Qed.

(** X2: the category after normalisation is [execve] exactly when the rule name
    is [Unix Exec] or the category was [execve] already; without that rule
    name the category is kept. *)
Theorem normalize_category (e : event) :
  (Category (normalize e).1 = "execve"
   ↔ Details.Name (Details e) = "Unix Exec" ∨ Category e = "execve")
  ∧ (Details.Name (Details e) ≠ "Unix Exec" →
     Category (normalize e).1 = Category e).
Proof.
  rewrite normalize_fields. cbn.
  destruct (String.eqb_spec (Details.Name (Details e)) "Unix Exec") as [H|H].
  - split; [split; [by left|done]|done].
  - split; [split; [by right|by intros [?|?]]|done].
Qed.

Section TrimShape.

Variable cutset : string.

Lemma TrimLeft_split (s : string) :
  ∃ pre, s = pre +:+ TrimLeft s cutset ∧ allIn cutset pre.
Proof.
  induction s as [|c s (pre & Hs & Hpre)]; [by exists ""|].
  cbn [TrimLeft]. destruct (inCutset cutset c) eqn:Hc.
  - exists (String c pre). split.
    + change (String c pre +:+ ?t) with (String c (pre +:+ t)). by rewrite <- Hs.
    + unfold allIn in *. cbn. by rewrite Hc.
  - by exists "".
Qed.

Lemma TrimLeft_head (s : string) (a : ascii) (r : string) :
  TrimLeft s cutset = String a r → inCutset cutset a = false.
Proof.
  induction s as [|c s IH]; [done|]. cbn [TrimLeft].
  destruct (inCutset cutset c) eqn:Hc; [done|]. by intros [= <- _].
Qed.

Lemma TrimRight_split (s : string) :
  ∃ post, s = TrimRight s cutset +:+ post ∧ allIn cutset post.
Proof.
  induction s as [|c s (post & Hs & Hpost)]; [by exists ""|].
  cbn [TrimRight]. destruct (TrimRight s cutset) as [|c' r] eqn:Hr.
  - destruct (inCutset cutset c) eqn:Hc.
    + exists (String c s). split; [done|].
      change ("" +:+ post) with post in Hs. subst post.
      unfold allIn in *. cbn. by rewrite Hc.
    + exists post. split; [|done].
      change (String c "" +:+ post) with (String c ("" +:+ post)). by rewrite <- Hs.
  - exists post. split; [|done].
    change (String c (String c' r) +:+ post) with (String c (String c' r +:+ post)).
    by rewrite <- Hs.
Qed.

Lemma TrimRight_last (s : string) :
  ∀ (r : string) (a : ascii),
    TrimRight s cutset = r +:+ String a "" → inCutset cutset a = false.
Proof.
  induction s as [|c s IH]; intros r a H.
  - by destruct r.
  - cbn [TrimRight] in H. destruct (TrimRight s cutset) as [|c' t] eqn:Ht.
    + destruct (inCutset cutset c) eqn:Hc; [by destruct r|].
      destruct r as [|x r]; [by injection H as <-|].
      injection H as _ H. by destruct r.
    + destruct r as [|x r]; [done|].
      injection H as _ H. by apply (IH r).
Qed.

Lemma TrimLeft_allIn (s : string) : allIn cutset s → TrimLeft s cutset = "".
Proof.
  unfold allIn. induction s as [|c s IH]; [done|]. cbn.
  intros [Hc Hs]%andb_true_iff. rewrite Hc. by apply IH.
Qed.

Lemma TrimRight_allIn (s : string) : allIn cutset s → TrimRight s cutset = "".
Proof.
  unfold allIn. induction s as [|c s IH]; [done|]. cbn.
  intros [Hc Hs]%andb_true_iff. by rewrite (IH Hs), Hc.
Qed.

End TrimShape.

(** X3: the summary after normalisation is the summary with a run of spaces and
    newlines taken off each end, and neither starts nor ends with a space or
    a newline. *)
Theorem normalize_summary_trimmed (e : event) :
  let s' := Summary (normalize e).1 in
  (∃ pre post, Summary e = pre +:+ s' +:+ post
               ∧ allIn summaryCutset pre ∧ allIn summaryCutset post)
  ∧ (∀ a r, s' = String a r → inCutset summaryCutset a = false)
  ∧ (∀ r a, s' = r +:+ String a "" → inCutset summaryCutset a = false).
Proof.
  rewrite normalize_fields. cbn -[Trim String.append nl].
  fold summaryCutset. unfold Trim. repeat split.
  - destruct (TrimRight_split summaryCutset (Summary e)) as (post & Hs & Hpost).
    destruct (TrimLeft_split summaryCutset (TrimRight (Summary e) summaryCutset))
      as (pre & Hr & Hpre).
    exists pre, post. split; [|done].
    rewrite <- append_assoc, <- Hr. exact Hs.
  - intros a r. apply TrimLeft_head.
  - intros r a. rewrite <- TrimRight_TrimLeft. apply TrimRight_last.
Qed.

(** X4: a summary made of spaces and newlines only is normalised to the empty
    summary, and the event prints as an unknown syslog event. *)
Theorem syslogEvstr_blank_summary (e : event) :
  allIn summaryCutset (Summary e) →
  Summary (normalize e).1 = ""
  ∧ syslogEvstr (normalize e).1 = "[syslog] unknown syslog event".
Proof.
  intros H. unfold syslogEvstr. rewrite normalize_fields. cbn -[Trim String.append nl].
  fold summaryCutset. unfold Trim.
  by rewrite (TrimRight_allIn _ _ H).
Qed.

Lemma syslogEvstr_blank_summary_witness :
  allIn summaryCutset (Summary (setSummary ("  " +:+ nl +:+ " ") eventLs))
  ∧ Summary (normalize (setSummary ("  " +:+ nl +:+ " ") eventLs)).1 = ""
  ∧ syslogEvstr (normalize (setSummary ("  " +:+ nl +:+ " ") eventLs)).1
    = "[syslog] unknown syslog event".
Proof.
  assert (H : allIn summaryCutset (Summary (setSummary ("  " +:+ nl +:+ " ") eventLs)))
    by reflexivity.
  split; [exact H | exact (syslogEvstr_blank_summary _ H)].
Defined.

(** ** The fetch: errors, requests, results *)

Lemma normalize_fixed (e : event) : (normalize (normalize e).1).1 = (normalize e).1.
Proof.
  rewrite !normalize_fields. cbn -[Trim String.append nl fallback].
  rewrite !fallback_idem, Trim_idem.
  destruct (String.eqb (Details.Name (Details e)) "Unix Exec"); reflexivity.
Qed.

Lemma offsetAt_small (k : nat) :
  docsPerSearch * Z.of_nat k < 2 ^ 63 → offsetAt k = docsPerSearch * Z.of_nat k.
Proof.
  induction k as [|k IH]; intros H; [done|].
  change (offsetAt (S k)) with (int (offsetAt k + docsPerSearch)).
  unfold docsPerSearch in *. rewrite IH by lia.
  rewrite int_small; lia.
Qed.

Lemma sameSettings_refl (c : config) : sameSettings c c.
Proof. by repeat split. Qed.

Lemma sameSettings_trans (c1 c2 c3 : config) :
  sameSettings c1 c2 → sameSettings c2 c3 → sameSettings c1 c3.
Proof. unfold sameSettings. intros (?&?&?&?) (?&?&?&?). repeat split; congruence. Qed.

Section FetchMore.

Context {Backend Source : Type}.
Variable Search : Backend → request → Backend * (list Source * error).
Variable Unmarshal : Source → event → event * error.

(** The loop over the hits changes the results only, by appending events
    that are normalised. *)
Lemma runQueryIndex_hits_keeps (hits : list Source) :
  ∀ (c c' : config) (err : error),
    runQueryIndex_hits Unmarshal hits c = (c', err) →
    sameSettings c c'
    ∧ ∃ evs, results c' = results c ++ evs
             ∧ Forall (fun ev => (normalize ev).1 = ev) evs.
Proof.
  induction hits as [|x hits IH]; intros c c' err H; cbn [runQueryIndex_hits] in H.
  - injection H as <- <-. split; [apply sameSettings_refl|].
    exists []. by rewrite app_nil_r.
  - destruct (Unmarshal x zeroEvent) as [nev [e|]].
    { injection H as <- <-. split; [apply sameSettings_refl|].
      exists []. by rewrite app_nil_r. }
    assert (Hn2 : (normalize nev).2 = None) by (by rewrite normalize_fields).
    destruct (normalize nev) as [nev' e'] eqn:Hnn. cbn in Hn2. subst e'.
    apply IH in H as (Hs & evs & Hr & Hn). split; [exact Hs|].
    exists (nev' :: evs). cbn [results setResults] in Hr.
    rewrite Hr, <- app_assoc. split; [done|].
    constructor; [|done].
    replace nev' with (normalize nev).1 by (by rewrite Hnn). apply normalize_fixed.
Qed.

(** A document that does not decode ends the loop over the hits: the hits
    before it are stored, the ones after it are not looked at. *)
Lemma runQueryIndex_hits_undecoded (ok rest : list Source) (bad : Source)
  (e : string) (c : config) :
  Forall (decodes Unmarshal) ok →
  (Unmarshal bad zeroEvent).2 = Some e →
  runQueryIndex_hits Unmarshal (ok ++ bad :: rest) c
  = (setResults (results c ++ map (stored Unmarshal) ok) c, Some e).
Proof.
  intros Hok Hbad. revert c. induction Hok as [|x ok Hx _ IH]; intros c.
  - cbn. destruct (Unmarshal bad zeroEvent) as [nev err]. cbn in Hbad. subst err.
    rewrite app_nil_r. by destruct c.
  - cbn [app runQueryIndex_hits]. unfold decodes in Hx.
    destruct (Unmarshal x zeroEvent) as [nev err] eqn:Hu. cbn in Hx. subst err.
    rewrite normalize_fields, IH. cbn [results setResults map].
    rewrite <- app_assoc. cbn [app]. unfold stored at 2.
    rewrite Hu, normalize_fields. reflexivity.
Qed.

(** The requests of the loop of a fetch, whatever the backend answers: they
    go to the domain of the configuration, to the index and the document
    type of the fetch, and carry the query with the successive offsets; the
    loop changes the results only, by appending normalised events. *)
Lemma runQueryIndex_loop_shape (index doctype : string) (qry : queryContainer)
  (fuel : nat) :
  ∀ (w w' : world Backend) (k : nat) (err : error),
    runQueryIndex_loop Search Unmarshal fuel w (setFrom (offsetAt k) qry)
      index doctype = Some (w', err) →
    ∃ n : nat,
      (0 < n ≤ fuel)%nat
      ∧ sent w' = sent w ++ map (fun j => mkRequest (eshost (cfg w)) index doctype
                                            (setFrom (offsetAt j) qry)) (seq k n)
      ∧ sameSettings (cfg w) (cfg w')
      ∧ ∃ evs, results (cfg w') = results (cfg w) ++ evs
               ∧ Forall (fun ev => (normalize ev).1 = ev) evs.
Proof.
  induction fuel as [|fuel IH]; intros w w' k err H; [done|].
  cbn [runQueryIndex_loop] in H.
  destruct (Search _ _) as [b [hits [e|]]].
  { injection H as <- <-. exists 1%nat. cbn. repeat split; try done; try lia.
    exists []. by rewrite app_nil_r. }
  destruct (Z.of_nat (length hits) =? 0).
  { injection H as <- <-. exists 1%nat. cbn. repeat split; try done; try lia.
    exists []. by rewrite app_nil_r. }
  cbn [cfg backend sent] in H.
  destruct (runQueryIndex_hits _ _ _) as [c [e|]] eqn:Hh;
    apply runQueryIndex_hits_keeps in Hh as (Hs & evs & Hr & Hn).
  { injection H as <- <-. exists 1%nat. cbn. repeat split; try apply Hs; try lia.
    by exists evs. }
  change (setFrom (int (From (setFrom (offsetAt k) qry) + docsPerSearch))
            (setFrom (offsetAt k) qry))
    with (setFrom (offsetAt (S k)) qry) in H.
  apply IH in H as (n & Hn' & Hsent & Hs' & evs' & Hr' & Hn'').
  cbn [cfg sent] in *. exists (S n). split; [lia|]. split.
  - rewrite Hsent, <- app_assoc. cbn [seq map app].
    destruct Hs as (-> & _). reflexivity.
  - split; [by eapply sameSettings_trans|].
    exists (evs ++ evs'). rewrite Hr', Hr, <- app_assoc. split; [done|].
    by apply Forall_app.
Qed.

(** While the backend serves pages that are not empty and decode, the loop
    goes on: it has stored the pages and is at the next offset. *)
Lemma runQueryIndex_loop_advance (index doctype : string) (qry : queryContainer)
  (pages : list (list Source)) :
  ∀ (fuel : nat) (w : world Backend) (off : Z) (b' : Backend),
    servesTo Search (backend w) (eshost (cfg w)) index doctype qry off pages b' →
    Forall (decodes Unmarshal) (concat pages) →
    - 2 ^ 63 ≤ off →
    off + docsPerSearch * Z.of_nat (length pages) < 2 ^ 63 →
    runQueryIndex_loop Search Unmarshal (length pages + fuel) w (setFrom off qry)
      index doctype
    = runQueryIndex_loop Search Unmarshal fuel
        (mkWorld b'
           (setResults (results (cfg w) ++ map (stored Unmarshal) (concat pages))
                       (cfg w))
           (sent w ++ pageRequests (eshost (cfg w)) index doctype qry off
                        (length pages)))
        (setFrom (off + docsPerSearch * Z.of_nat (length pages)) qry)
        index doctype.
Proof.
  induction pages as [|p pages IH]; intros fuel w off b' Hs Hd Hlo Hhi;
    cbn [servesTo] in Hs.
  - subst b'. cbn [length Nat.add concat map]. unfold pageRequests.
    cbn [seq map]. rewrite !app_nil_r.
    replace (off + docsPerSearch * Z.of_nat 0) with off by lia.
    by destruct w as [? [] ?].
  - destruct Hs as (Hp & b1 & HS & Hs).
    cbn [concat] in Hd. apply Forall_app in Hd as [Hdp Hd].
    cbn [length Nat.add runQueryIndex_loop]. rewrite HS.
    destruct (Z.eqb_spec (Z.of_nat (length p)) 0) as [H0|_].
    { destruct p; [done | cbn in H0; lia]. }
    rewrite runQueryIndex_hits_decoded by done.
    cbn [backend cfg sent From setFrom Size Sort Query].
    change (setFrom (int (off + docsPerSearch)) (setFrom off qry))
      with (setFrom (int (off + docsPerSearch)) qry).
    cbn [length] in Hhi. unfold docsPerSearch in *.
    rewrite int_small by lia.
    rewrite (IH fuel _ (off + 100) b');
      cbn [backend cfg sent eshost setResults results]; [|done|done|lia|lia].
    cbn [concat]. rewrite (pageRequests_S _ _ _ _ off), <- !app_assoc, map_app.
    unfold docsPerSearch. cbn [app].
    replace (off + 100 + 100 * Z.of_nat (length pages))
      with (off + 100 * Z.of_nat (S (length pages))) by lia.
    reflexivity.
Qed.

(** X6: an error of the backend ends the fetch: the error comes back as it is,
    the pages served before it stay in the results, and the failed request
    is the last one sent. *)
Theorem fetch_search_error (fuel : nat) (w : world Backend)
  (qry : queryContainer) (index doctype : string) (pages : list (list Source))
  (b1 b' : Backend) (hits : list Source) (e : string) :
  servesTo Search (backend w) (eshost (cfg w)) index doctype qry 0 pages b1 →
  Search b1 (mkRequest (eshost (cfg w)) index doctype
               (setFrom (docsPerSearch * Z.of_nat (length pages)) qry))
  = (b', (hits, Some e)) →
  Forall (decodes Unmarshal) (concat pages) →
  docsPerSearch * Z.of_nat (length pages) < 2 ^ 63 →
  (length pages < fuel)%nat →
  runQueryIndex Search Unmarshal fuel w qry index doctype =
  Some (mkWorld b'
          (setResults (results (cfg w) ++ map (stored Unmarshal) (concat pages))
                      (cfg w))
          (sent w ++ pageRequests (eshost (cfg w)) index doctype qry 0
                       (S (length pages))),
        Some e).
Proof.
  intros Hs HS Hd Hhi Hfuel. unfold runQueryIndex.
  replace fuel with (length pages + S (fuel - S (length pages)))%nat by lia.
  rewrite (runQueryIndex_loop_advance _ _ _ _ _ _ 0 b1) by (done || lia).
  cbn [runQueryIndex_loop backend cfg sent eshost setResults].
  rewrite Z.add_0_l, HS. cbn [cfg backend sent].
  rewrite <- app_assoc. do 3 f_equal.
  unfold pageRequests. rewrite seq_S, map_app. cbn. by rewrite Z.add_0_l.
Qed.

(** X7: a document that does not decode ends the fetch: the error of the
    decoding comes back, the pages before and the documents of the page
    before the bad one stay in the results, and no further request is
    sent. *)
Theorem fetch_decode_error (fuel : nat) (w : world Backend)
  (qry : queryContainer) (index doctype : string) (pages : list (list Source))
  (b1 b' : Backend) (ok rest : list Source) (bad : Source) (e : string) :
  servesTo Search (backend w) (eshost (cfg w)) index doctype qry 0 pages b1 →
  Search b1 (mkRequest (eshost (cfg w)) index doctype
               (setFrom (docsPerSearch * Z.of_nat (length pages)) qry))
  = (b', (ok ++ bad :: rest, None)) →
  Forall (decodes Unmarshal) (concat pages ++ ok) →
  (Unmarshal bad zeroEvent).2 = Some e →
  docsPerSearch * Z.of_nat (length pages) < 2 ^ 63 →
  (length pages < fuel)%nat →
  runQueryIndex Search Unmarshal fuel w qry index doctype =
  Some (mkWorld b'
          (setResults
             (results (cfg w) ++ map (stored Unmarshal) (concat pages ++ ok))
             (cfg w))
          (sent w ++ pageRequests (eshost (cfg w)) index doctype qry 0
                       (S (length pages))),
        Some e).
Proof.
  intros Hs HS Hd Hbad Hhi Hfuel. unfold runQueryIndex.
  apply Forall_app in Hd as [Hd Hok].
  replace fuel with (length pages + S (fuel - S (length pages)))%nat by lia.
  rewrite (runQueryIndex_loop_advance _ _ _ _ _ _ 0 b1) by (done || lia).
  cbn [runQueryIndex_loop backend cfg sent eshost setResults].
  rewrite Z.add_0_l, HS. cbn [cfg backend sent].
  destruct (Z.eqb_spec (Z.of_nat (length (ok ++ bad :: rest))) 0) as [H0|_].
  { rewrite length_app in H0. cbn in H0. lia. }
  rewrite (runQueryIndex_hits_undecoded ok rest bad e) by done.
  cbn [results setResults eshost startDate endDate hostmatch].
  rewrite <- !app_assoc, map_app. do 3 f_equal.
  unfold pageRequests. rewrite seq_S, map_app. cbn. by rewrite Z.add_0_l.
Qed.

End FetchMore.

Section RunMore.

Context {Backend Source : Type}.
Variable Search : Backend → request → Backend * (list Source * error).
Variable Unmarshal : Source → event → event * error.

(** X8: whatever the backend answers, a fetch that ends has sent one request at
    least, all to its own index and document type on the domain of the
    configuration, with the query at the offsets of the pages 0, 1, ...: 0,
    100, 200, ... as long as the offset fits an [int]. *)
Theorem fetch_requests (fuel : nat) (w w' : world Backend) (qry : queryContainer)
  (index doctype : string) (err : error) :
  runQueryIndex Search Unmarshal fuel w qry index doctype = Some (w', err) →
  (∃ block, sent w' = sent w ++ block
            ∧ (length block ≤ fuel)%nat
            ∧ fetchBlock (eshost (cfg w)) doctype qry index block)
  ∧ ∀ j : nat, docsPerSearch * Z.of_nat j < 2 ^ 63 →
               offsetAt j = docsPerSearch * Z.of_nat j.
Proof.
  intros H. split; [|apply offsetAt_small].
  apply (runQueryIndex_loop_shape Search Unmarshal index doctype qry fuel w w' 0)
    in H as (n & Hn & Hsent & _).
  eexists. split; [exact Hsent|]. split.
  - rewrite length_map, length_seq. lia.
  - exists n. split; [lia|done].
Qed.

(** X9: a fetch returns without error only after an empty page: the last request
    it sent went to its index and was answered with no hit. *)
Theorem fetch_ends_empty (fuel : nat) (w w' : world Backend) (qry : queryContainer)
  (index doctype : string) :
  runQueryIndex Search Unmarshal fuel w qry index doctype = Some (w', None) →
  ∃ (rq : request) (b : Backend),
    last (sent w') = Some rq ∧ reqIndex rq = index
    ∧ Search b rq = (backend w', ([], None)).
Proof. apply runQueryIndex_loop_ends_empty. Qed.

(** The second loop of [runQuery], whatever the backend answers: the
    requests form one block per index gone through, in the order of the
    list; without error every index was gone through; the configuration
    changes in its results only, by normalised events appended. *)
Lemma runQuery_range_shape (fuel : nat) (qry : queryContainer) (doctype : string)
  (indices : list string) :
  ∀ (w w' : world Backend) (err : error),
    runQuery_range Search Unmarshal fuel w qry doctype indices = Some (w', err) →
    (∃ blocks,
       sent w' = sent w ++ concat blocks
       ∧ Forall2 (fetchBlock (eshost (cfg w)) doctype qry)
                 (take (length blocks) indices) blocks
       ∧ (err = None → length blocks = length indices))
    ∧ sameSettings (cfg w) (cfg w')
    ∧ ∃ evs, results (cfg w') = results (cfg w) ++ evs
             ∧ Forall (fun ev => (normalize ev).1 = ev) evs.
Proof.
  induction indices as [|x indices IH]; intros w w' err H; cbn [runQuery_range] in H.
  - injection H as <- <-. split; [|split; [apply sameSettings_refl|]].
    + exists []. cbn. by rewrite app_nil_r.
    + exists []. by rewrite app_nil_r.
  - destruct (runQueryIndex _ _ _ _ _ _ _) as [[w1 e1]|] eqn:Hx; [|done].
    apply (runQueryIndex_loop_shape Search Unmarshal x doctype qry fuel w w1 0)
      in Hx as (n & Hn & Hsent & Hs & evs & Hr & Hev).
    destruct e1 as [e1|].
    + injection H as <- <-. split; [|split; [done|by exists evs]].
      eexists [_]. cbn [concat length take]. rewrite app_nil_r.
      split; [exact Hsent|]. split; [|done].
      constructor; [|constructor]. exists n. split; [lia|done].
    + apply IH in H as ((blocks & Hsent' & Hb & Hlen) & Hs' & evs' & Hr' & Hev').
      split; [|split; [by eapply sameSettings_trans|]].
      * eexists (_ :: blocks). cbn [concat length take].
        rewrite Hsent', Hsent, <- app_assoc. split; [done|]. split.
        -- constructor; [exists n; split; [lia|done]|].
           destruct Hs as (<- & _). exact Hb.
        -- intros He. by rewrite (Hlen He).
      * exists (evs ++ evs'). rewrite Hr', Hr, <- app_assoc. split; [done|].
        by apply Forall_app.
Qed.

(** X10: when no fetch fails, every index of the list was fetched, one after the
    other in the order of the list, each from the offset 0 on and with one
    request at least. *)
Theorem runQuery_range_all (fuel : nat) (qry : queryContainer) (doctype : string)
  (indices : list string) (w w' : world Backend) :
  runQuery_range Search Unmarshal fuel w qry doctype indices = Some (w', None) →
  ∃ blocks,
    sent w' = sent w ++ concat blocks
    ∧ Forall2 (fetchBlock (eshost (cfg w)) doctype qry) indices blocks.
Proof.
  intros H. apply runQuery_range_shape in H as ((blocks & Hsent & Hb & Hlen) & _).
  exists blocks. split; [done|].
  rewrite (Hlen eq_refl), firstn_all in Hb. exact Hb.
Qed.

Lemma fetchBlock_runRequest (domain doctype : string) (qry : queryContainer)
  (index : string) (block : list request) :
  fetchBlock domain doctype qry index block →
  Forall (runRequest domain doctype qry) block.
Proof.
  intros (n & _ & ->). apply Forall_forall. intros rq Hin.
  apply list_elem_of_In, in_map_iff in Hin as (j & <- & _). by repeat split.
Qed.

Lemma fetchBlocks_runRequest (domain doctype : string) (qry : queryContainer)
  (indices : list string) (blocks : list (list request)) :
  Forall2 (fetchBlock domain doctype qry) indices blocks →
  Forall (runRequest domain doctype qry) (concat blocks).
Proof.
  intros Hb. apply Forall_concat.
  induction Hb as [|idx blk ? ? Hblk _ IH]; constructor; [|done].
  by eapply fetchBlock_runRequest.
Qed.

(** X11: a run of [runQuery], with or without error: the start, the end, the
    host and the hostname pattern of the configuration are as before; the
    results are the former results followed by normalised events; every
    request went to the configured host with the document type of the run
    and the query of the run, the offset apart. *)
Theorem runQuery_keeps (fuel : nat) (w w' : world Backend) (qry : queryContainer)
  (doctype : string) (err : error) :
  runQuery Search Unmarshal fuel w qry doctype = Some (w', err) →
  sameSettings (cfg w) (cfg w')
  ∧ (∃ evs, results (cfg w') = results (cfg w) ++ evs
            ∧ Forall (fun ev => (normalize ev).1 = ev) evs)
  ∧ ∃ rqs, sent w' = sent w ++ rqs
           ∧ Forall (runRequest (eshost (cfg w)) doctype qry) rqs.
Proof.
  unfold runQuery. destruct (runQuery_indices _ _ _ _) as [indices|]; [|done].
  intros H. apply runQuery_range_shape in H as ((blocks & Hsent & Hb & _) & Hs & Hr).
  split; [done|]. split; [done|].
  exists (concat blocks). split; [done|]. by eapply fetchBlocks_runRequest.
Qed.

End RunMore.

(** ** The index enumeration, when the end is less than a day after the
    start *)

(** X12: when the end is less than a day after the start, or before it, the
    first loop of [runQuery] stops in its first turn: it gives the name of
    the day of the start alone when the end falls on the same day, and
    otherwise the name of the day of the start followed by that of the day
    of the end, also when the end is on an earlier day. *)
Theorem runQuery_indices_short (c : config) (fuel : nat) :
  endDate c - startDate c < time.Hour * 24 →
  runQuery_indices (S fuel) c (startDate c) [] =
  Some (if time.days (startDate c) =? time.days (endDate c)
        then [indexName (startDate c)]
        else [indexName (startDate c); indexName (endDate c)]).
Proof.
  intros H. cbn [runQuery_indices]. rewrite Sub_lt_day.
  destruct (Z.ltb_spec (endDate c - startDate c) (time.Hour * 24)) as [_|?]; [|lia].
  cbn [app existsb]. rewrite orb_false_r, !indexName_dayIndex.
  destruct (String.eqb_spec (dayIndex (time.days (endDate c)))
                            (dayIndex (time.days (startDate c)))) as [He|He].
  - apply dayIndex_inj in He. rewrite He, Z.eqb_refl. reflexivity.
  - destruct (Z.eqb_spec (time.days (startDate c)) (time.days (endDate c))) as [Hd|_];
      [by rewrite Hd in He|reflexivity].
Qed.

Lemma runQuery_indices_short_witness :
  endDate stubConfigBackwards - startDate stubConfigBackwards < time.Hour * 24
  ∧ runQuery_indices 1 stubConfigBackwards (startDate stubConfigBackwards) []
    = Some ["events-20150302"; "events-20150301"].
Proof.
  assert (H : endDate stubConfigBackwards - startDate stubConfigBackwards
              < time.Hour * 24) by reflexivity.
  split; [exact H | exact (runQuery_indices_short stubConfigBackwards 0 H)].
Defined.

(** ** The documents of the queries *)

(** X13: what the two queries marshal to, for every start, end and hostname
    pattern: the members in the order of the fields, [should] left out when
    there is no pattern, every clause an object with its one member. *)
Theorem marshalQuery_document (c : config) :
  marshalQuery (buildAuditSearch c).1 = queryDocument c [("_type", "auditd")]
  ∧ marshalQuery (buildSyslogSearch c).1
    = queryDocument c [("_type", "event"); ("category", "syslog")].
Proof.
  unfold queryDocument, buildAuditSearch, buildSyslogSearch, defaultSettings,
    rangeCriteria.
  generalize (time.FormatRFC3339 (startDate c)) (time.FormatRFC3339 (endDate c)).
  intros gte lte. generalize (hostmatch c). intros pattern.
  destruct (String.eqb pattern ""); split; vm_compute; reflexivity.
Qed.

(** ** [main], from the flags to the lines *)

Lemma build_sameSettings (c c' : config) :
  sameSettings c c' →
  buildAuditSearch c' = buildAuditSearch c
  ∧ buildSyslogSearch c' = buildSyslogSearch c.
Proof.
  destruct c, c'. intros (_ & Hs & He & Hh). cbn in *. subst.
  split; reflexivity.
Qed.

Section MainMore.

Context {Backend Source : Type}.
Variable Search : Backend → request → Backend * (list Source * error).
Variable Unmarshal : Source → event → event * error.
Variable Parse : string → string → time.Time * error.
Variable Now : time.Time.
Variable Quote : string → string.
Variable TimeString : time.Time → string.

(** X14: [parseDates] fails with the error of the first date that does not
    parse, the start before the end; an empty end is not parsed and stands
    for the present instant; the host, the pattern and the results are not
    touched. *)
Theorem parseDates_spec (begin_ end_ : string) (c : config) :
  let r := parseDates Parse Now begin_ end_ c in
  r.2 = (match (Parse dateLayout begin_).2 with
         | Some err => Some err
         | None => if String.eqb end_ "" then None else (Parse dateLayout end_).2
         end)
  ∧ startDate r.1 = (Parse dateLayout begin_).1
  ∧ (r.2 = None →
     endDate r.1 = if String.eqb end_ "" then Now else (Parse dateLayout end_).1)
  ∧ ((Parse dateLayout begin_).2 ≠ None → endDate r.1 = endDate c)
  ∧ eshost r.1 = eshost c ∧ hostmatch r.1 = hostmatch c ∧ results r.1 = results c.
Proof.
  unfold parseDates, dateLayout.
  destruct (Parse _ begin_) as [t [e|]]; cbn; [by repeat split|].
  destruct (String.eqb end_ ""); cbn; [by repeat split|].
  destruct (Parse _ end_) as [t' [e'|]]; cbn; by repeat split.
Qed.

(** X15: the error of the missing host is reported exactly when the host is
    empty, whatever the flags, the dates and the backend. *)
Theorem main_no_host_iff (fuel : nat) (b : Backend) (env : string)
  (auditmode syslogmode : bool) (begindate enddate : string) (noop : bool)
  (hostmatch_ : string) :
  main Search Unmarshal Parse Now Quote TimeString fuel b env
    auditmode syslogmode begindate enddate noop hostmatch_
  = NoHost ("error: MOZDEFESHOST environment variable not set" +:+ nl)
  ↔ env = "".
Proof.
  unfold main, getESHost. cbn [eshost setEshost zeroConfig].
  destruct (String.eqb_spec env "") as [->|Hne]; [done|].
  split; [|done]. intros H. repeat case_match; discriminate H.
Qed.

(** X16: [main] never ends on a query that was not built, nor falls through
    without a mode; without the audit flag it never takes the audit
    branch. *)
Theorem main_never (fuel : nat) (b : Backend) (env : string)
  (auditmode syslogmode : bool) (begindate enddate : string) (noop : bool)
  (hostmatch_ : string) :
  (∀ m stderr,
     main Search Unmarshal Parse Now Quote TimeString fuel b env
       auditmode syslogmode begindate enddate noop hostmatch_
     ≠ BuildFailed m stderr)
  ∧ main Search Unmarshal Parse Now Quote TimeString fuel b env
      auditmode syslogmode begindate enddate noop hostmatch_
    ≠ Returned
  ∧ outcomeMode
      (main Search Unmarshal Parse Now Quote TimeString fuel b env
         false syslogmode begindate enddate noop hostmatch_)
    ≠ Some Audit.
Proof.
  unfold main, getESHost, buildAuditSearch, buildSyslogSearch, defaultSettings.
  cbn [eshost setEshost zeroConfig fst snd].
  repeat split.
  - intros m stderr H.
    destruct auditmode, syslogmode; cbn [negb andb] in H;
      repeat case_match; discriminate H.
  - intros H.
    destruct auditmode, syslogmode; cbn [negb andb] in H;
      repeat case_match; discriminate H.
  - destruct syslogmode; cbn [negb andb]; repeat case_match; cbn; congruence.
Qed.

(** X17: with [-n], [main] does not call the backend: its outcome is the same
    for every backend, every decoder and every bound on the turns, and is
    none of the outcomes of a search. *)
Theorem main_dry_run (fuel fuel' : nat) (b b' : Backend)
  (Search' : Backend → request → Backend * (list Source * error))
  (Unmarshal' : Source → event → event * error) (env : string)
  (auditmode syslogmode : bool) (begindate enddate : string)
  (hostmatch_ : string) :
  main Search Unmarshal Parse Now Quote TimeString fuel b env
    auditmode syslogmode begindate enddate true hostmatch_
  = main Search' Unmarshal' Parse Now Quote TimeString fuel' b' env
      auditmode syslogmode begindate enddate true hostmatch_
  ∧ ¬ contacted
        (main Search Unmarshal Parse Now Quote TimeString fuel b env
           auditmode syslogmode begindate enddate true hostmatch_).
Proof.
  unfold main, getESHost, buildAuditSearch, buildSyslogSearch, defaultSettings.
  cbn [eshost setEshost zeroConfig fst snd].
  split.
  - destruct auditmode, syslogmode; cbn [negb andb]; repeat case_match; congruence.
  - destruct auditmode, syslogmode; cbn [negb andb]; repeat case_match; cbn; tauto.
Qed.

Lemma parseDates_keeps (begin_ end_ : string) (c c' : config) (err : error) :
  parseDates Parse Now begin_ end_ c = (c', err) →
  eshost c' = eshost c ∧ hostmatch c' = hostmatch c ∧ results c' = results c.
Proof.
  unfold parseDates. destruct (Parse _ begin_) as [t [e|]].
  { by intros [= <- <-]. }
  destruct (String.eqb end_ ""); [by intros [= <- <-]|].
  destruct (Parse _ end_) as [t' [e'|]]; by intros [= <- <-].
Qed.

(** What a search that went well has done. *)
Lemma runQuery_printed (fuel : nat) (b : Backend) (c : config) (m : mode)
  (w : world Backend) :
  results c = [] →
  runQuery Search Unmarshal fuel (mkWorld b c []) (modeQuery m c) (modeDoctype m)
  = Some (w, None) →
  eshost (cfg w) = eshost c ∧ hostmatch (cfg w) = hostmatch c
  ∧ Forall (fun ev => (normalize ev).1 = ev) (results (cfg w))
  ∧ Forall (runRequest (eshost c) (modeDoctype m) (modeQuery m (cfg w))) (sent w).
Proof.
  intros Hres. unfold runQuery.
  destruct (runQuery_indices _ _ _ _) as [indices|]; [|done].
  intros H.
  apply runQuery_range_shape in H as ((blocks & Hsent & Hb & _) & Hs & evs & Hr & Hev).
  cbn [cfg sent] in *. rewrite Hres in Hr. cbn in Hr, Hsent. rewrite Hr, Hsent.
  destruct (build_sameSettings _ _ Hs) as [Ha Hsy].
  destruct Hs as (He & _ & _ & Hh). repeat split; try done.
  replace (modeQuery m (cfg w)) with (modeQuery m c)
    by (destruct m; unfold modeQuery; by rewrite ?Ha, ?Hsy).
  by eapply fetchBlocks_runRequest.
Qed.

(** X18: when [main] prints results, it ran without [-n] on a configured host,
    in audit mode if the audit flag was set and in syslog mode otherwise; it
    printed one line per result, with the renderer of the mode; the results
    are normalised events; and every request it sent went to the host of the
    environment, with the document type of the mode and the query of the
    mode for the hostname pattern given. *)
Theorem main_printed (fuel : nat) (b : Backend) (env : string)
  (auditmode syslogmode : bool) (begindate enddate : string) (noop : bool)
  (hostmatch_ : string) (m : mode) (w : world Backend) (stdout : list string) :
  main Search Unmarshal Parse Now Quote TimeString fuel b env
    auditmode syslogmode begindate enddate noop hostmatch_
  = Printed m w stdout →
  m = (if auditmode then Audit else Syslog)
  ∧ noop = false ∧ env ≠ ""
  ∧ stdout = match m with
             | Audit => auditResults Quote TimeString (cfg w)
             | Syslog => syslogResults TimeString (cfg w)
             end
  ∧ length stdout = length (results (cfg w))
  ∧ eshost (cfg w) = env ∧ hostmatch (cfg w) = hostmatch_
  ∧ Forall (fun ev => (normalize ev).1 = ev) (results (cfg w))
  ∧ Forall (runRequest env (modeDoctype m) (modeQuery m (cfg w))) (sent w).
Proof.
  unfold main, getESHost. cbn [eshost setEshost zeroConfig].
  destruct (String.eqb_spec env "") as [|Henv]; [done|].
  destruct (parseDates _ _ _ _ _) as [c [e|]] eqn:Hp.
  { destruct auditmode, syslogmode; done. }
  apply parseDates_keeps in Hp as (Hhost & _ & Hres). cbn in Hhost, Hres.
  assert (Hq : ∀ m', runQuery Search Unmarshal fuel
                       (mkWorld b (setHostmatch hostmatch_ c) [])
                       (modeQuery m' (setHostmatch hostmatch_ c)) (modeDoctype m')
                     = Some (w, None) →
               eshost (cfg w) = env ∧ hostmatch (cfg w) = hostmatch_
               ∧ Forall (fun ev => (normalize ev).1 = ev) (results (cfg w))
               ∧ Forall (runRequest env (modeDoctype m') (modeQuery m' (cfg w)))
                        (sent w)).
  { intros m' H. apply runQuery_printed in H; [|done].
    cbn [eshost hostmatch setHostmatch] in H. by rewrite Hhost in H. }
  destruct auditmode, syslogmode; cbn [negb andb]; try done.
  all: match goal with
       | |- context [buildAuditSearch ?c'] =>
           change (buildAuditSearch c') with (modeQuery Audit c', @None string)
       | |- context [buildSyslogSearch ?c'] =>
           change (buildSyslogSearch c') with (modeQuery Syslog c', @None string)
       end.
  all: destruct noop; [done|].
  all: destruct (runQuery _ _ _ _ _ _) as [[w1 [e|]]|] eqn:Hrun; try done.
  all: intros [= <- <- <-].
  all: apply Hq in Hrun as (? & ? & ? & ?).
  all: repeat split; try done.
  all: unfold auditResults, syslogResults; by rewrite length_map.
Qed.

End MainMore.

(** ** The further statements at work *)

Lemma auditEvstr_execve_witness :
  Category eventLs = "execve"
  ∧ auditEvstr quoteASCII eventLs =
    "[execve] ("
      +:+ (if String.eqb (Details.OriginalUser (Details eventLs)) "" then "none"
           else Details.OriginalUser (Details eventLs))
      +:+ "/" +:+ Details.User (Details eventLs) +:+ ")"
      +:+ (if String.eqb (Details.Command (Details eventLs)) "" then ""
           else " command:" +:+ quoteASCII (Details.Command (Details eventLs)))
      +:+ (if String.eqb (Details.DProc (Details eventLs)) "" then ""
           else " proc:" +:+ quoteASCII (Details.ProcessName (Details eventLs)))
      +:+ (if String.eqb (Details.Path (Details eventLs)) "" then ""
           else " path:" +:+ quoteASCII (Details.Path (Details eventLs))).
Proof.
  split; [reflexivity | exact (auditEvstr_execve quoteASCII eventLs eq_refl)].
Defined.

Lemma fetch_search_error_witness :
  ∃ w' : world (list (list event * error)),
    runQueryIndex stubSearch stubUnmarshal 2 (stubWorld stubTimeout)
      (buildAuditSearch stubConfig).1 "events-20150301" "auditd"
    = Some (w', Some "connection refused")
    ∧ map (fun rq => From (reqQuery rq)) (sent w') = [0; 100]
    ∧ length (results (cfg w')) = 2%nat.
Proof.
  eexists. split.
  - apply (fetch_search_error stubSearch stubUnmarshal 2 (stubWorld stubTimeout)
             (buildAuditSearch stubConfig).1 "events-20150301" "auditd"
             [repeat zeroEvent 2] [([], Some "connection refused")] [] []
             "connection refused").
    + cbn [servesTo]. split; [discriminate|]. eexists. split; reflexivity.
    + reflexivity.
    + apply Forall_forall. intros src _. reflexivity.
    + vm_compute. reflexivity.
    + vm_compute. lia.
  - vm_compute. repeat split; reflexivity.
Defined.

Lemma fetch_decode_error_witness :
  ∃ w' : world (list (list event * error)),
    runQueryIndex stubSearch stubDecode 3 (stubWorld stubGarbled)
      (buildAuditSearch stubConfig).1 "events-20150301" "auditd"
    = Some (w', Some "invalid character")
    ∧ map (fun rq => From (reqQuery rq)) (sent w') = [0; 100]
    ∧ length (results (cfg w')) = 2%nat
    ∧ backend w' = [stubPage 0].
Proof.
  eexists. split.
  - apply (fetch_decode_error stubSearch stubDecode 3 (stubWorld stubGarbled)
             (buildAuditSearch stubConfig).1 "events-20150301" "auditd"
             [[zeroEvent]]
             [([zeroEvent; eventMalformed; zeroEvent], None); stubPage 0]
             [stubPage 0] [zeroEvent] [zeroEvent] eventMalformed
             "invalid character").
    + cbn [servesTo]. split; [discriminate|]. eexists. split; reflexivity.
    + reflexivity.
    + repeat constructor.
    + reflexivity.
    + vm_compute. reflexivity.
    + vm_compute. lia.
  - vm_compute. repeat split; reflexivity.
Defined.

Lemma fetch_requests_witness :
  ∃ w' : world (list (list event * error)),
    runQueryIndex stubSearch stubUnmarshal 2 (stubWorld stubTimeout)
      (buildAuditSearch stubConfig).1 "events-20150301" "auditd"
    = Some (w', Some "connection refused")
    ∧ (∃ block, sent w' = sent (stubWorld stubTimeout) ++ block
                ∧ (length block ≤ 2)%nat
                ∧ fetchBlock (eshost (cfg (stubWorld stubTimeout))) "auditd"
                    (buildAuditSearch stubConfig).1 "events-20150301" block).
Proof.
  eexists. split; [reflexivity|].
  refine (proj1 (fetch_requests stubSearch stubUnmarshal 2 (stubWorld stubTimeout) _
                   (buildAuditSearch stubConfig).1 "events-20150301" "auditd"
                   (Some "connection refused") _)).
  reflexivity.
Defined.

Lemma fetch_ends_empty_witness :
  ∃ (w' : world (list (list event * error))) (rq : request)
    (b : list (list event * error)),
    runQueryIndex stubSearch stubUnmarshal 2 (stubWorld stubTwoDays)
      (buildAuditSearch stubConfig).1 "events-20150301" "auditd"
    = Some (w', None)
    ∧ last (sent w') = Some rq ∧ reqIndex rq = "events-20150301"
    ∧ stubSearch b rq = (backend w', ([], None)).
Proof.
  assert (H : runQueryIndex stubSearch stubUnmarshal 2 (stubWorld stubTwoDays)
                (buildAuditSearch stubConfig).1 "events-20150301" "auditd"
              = Some (mkWorld [stubPage 0]
                        (setResults [eventLs] (setEshost "localhost:9200" zeroConfig))
                        (pageRequests "localhost:9200" "events-20150301" "auditd"
                           (buildAuditSearch stubConfig).1 0 2), None))
    by reflexivity.
  destruct (fetch_ends_empty stubSearch stubUnmarshal 2 _ _ _ _ _ H)
    as (rq & b & Hl & Hi & Hs).
  eexists _, rq, b. split; [exact H|]. by repeat split.
Defined.

Lemma runQuery_range_all_witness :
  ∃ w' : world (list (list event * error)),
    runQuery_range stubSearch stubUnmarshal 2 (stubWorld stubTwoDays)
      (buildAuditSearch stubConfig).1 "auditd"
      ["events-20150301"; "events-20150302"]
    = Some (w', None)
    ∧ ∃ blocks,
        sent w' = sent (stubWorld stubTwoDays) ++ concat blocks
        ∧ Forall2 (fetchBlock (eshost (cfg (stubWorld stubTwoDays))) "auditd"
                     (buildAuditSearch stubConfig).1)
                  ["events-20150301"; "events-20150302"] blocks.
Proof.
  eexists. split; [reflexivity|].
  eapply (runQuery_range_all stubSearch stubUnmarshal 2). reflexivity.
Defined.

Lemma runQuery_keeps_witness :
  ∃ w' : world (list (list event * error)),
    runQuery stubSearch stubUnmarshal 2 (mkWorld stubTwoDays stubConfig [])
      (buildAuditSearch stubConfig).1 "auditd"
    = Some (w', None)
    ∧ sameSettings stubConfig (cfg w')
    ∧ (∃ evs, results (cfg w') = results stubConfig ++ evs
              ∧ Forall (fun ev => (normalize ev).1 = ev) evs)
    ∧ ∃ rqs, sent w' = [] ++ rqs
             ∧ Forall (runRequest (eshost stubConfig) "auditd"
                         (buildAuditSearch stubConfig).1) rqs.
Proof.
  eexists. split; [reflexivity|].
  eapply (runQuery_keeps stubSearch stubUnmarshal 2
            (mkWorld stubTwoDays stubConfig [])).
  reflexivity.
Defined.

Lemma main_printed_witness :
  ∃ (w : world (list (list event * error))) (stdout : list string),
    main stubSearch stubUnmarshal stubParse 0 quoteASCII stubTimeString 3
      stubTwoDays "localhost:9200" true true
      "2015-03-01 00:00:00" "2015-03-02 12:00:00" false "web.*"
    = Printed Audit w stdout
    ∧ (Audit = (if true then Audit else Syslog)
       ∧ false = false ∧ "localhost:9200" ≠ ""
       ∧ stdout = auditResults quoteASCII stubTimeString (cfg w)
       ∧ length stdout = length (results (cfg w))
       ∧ eshost (cfg w) = "localhost:9200" ∧ hostmatch (cfg w) = "web.*"
       ∧ Forall (fun ev => (normalize ev).1 = ev) (results (cfg w))
       ∧ Forall (runRequest "localhost:9200" (modeDoctype Audit)
                   (modeQuery Audit (cfg w))) (sent w)).
Proof.
  eexists _, _. split; [vm_compute; reflexivity|].
  eapply (main_printed stubSearch stubUnmarshal stubParse 0 quoteASCII
            stubTimeString 3 stubTwoDays "localhost:9200" true true
            "2015-03-01 00:00:00" "2015-03-02 12:00:00" false "web.*" Audit).
  vm_compute. reflexivity.
Defined.
